(** * docs/terminal/fix.py: the terminal-recording post-processor

    A shallow embedding of the script that rewrites a recorded terminal
    session (one JSON event per line) for documentation playback, and the
    properties of its three passes: prompt rewriting and newline
    annotation, blanket prompt colouring, and the collapse of the
    package-addition records into one ellipsized summary.

    Text is modelled as [string]: the bytes of the UTF-8 file.  Every
    pattern the script searches for is ASCII, so searching and replacing
    bytes agrees with searching and replacing code points. *)

From Stdlib Require Import Ascii String ZArith Lia.
From stdpp Require Import base list strings pretty.

#[local] Arguments String.append : simpl nomatch.
#[local] Arguments Ascii.eqb !_ !_ : simpl nomatch.
#[local] Open Scope nat_scope.
#[local] Set Warnings "-register-all".

(** ** Exceptions and the error monad *)

(** The exceptions the script can die with.  None of them is caught. *)
Inductive exn : Type :=
  | IndexError
  | KeyError
  | TypeError
  | AttributeError
  | JSONDecodeError
  | RecursionError.

Inductive result (A : Type) : Type :=
  | Ok (a : A)
  | Raise (e : exn).
Arguments Ok {A} a.
Arguments Raise {A} e.

#[global] Instance result_ret : MRet result := fun A a => Ok a.
#[global] Instance result_bind : MBind result := fun A B k m =>
  match m with
  | Ok a => k a
  | Raise e => Raise e
  end.

Definition is_ok {A : Type} (m : result A) : bool :=
  match m with Ok _ => true | Raise _ => false end.

(** [for i in idx: s = body(i, s)], stopping at the first exception. *)
Fixpoint for_loop {S : Type} (idx : list nat) (body : nat -> S -> result S)
    (s : S) : result S :=
  match idx with
  | [] => Ok s
  | i :: rest => s' ← body i s; for_loop rest body s'
  end.

(** [for i in range(n)] *)
Definition for_range {S : Type} (n : nat) (body : nat -> S -> result S)
    (s : S) : result S :=
  for_loop (seq 0 n) body s.

(** ** The Python built-ins the script uses *)

Module Py.

(** [s.startswith(p)]; the building block of the searches below. *)
Fixpoint starts (p s : string) : bool :=
  match p, s with
  | EmptyString, _ => true
  | String a p', String b s' => Ascii.eqb a b && starts p' s'
  | String _ _, EmptyString => false
  end.

(** [sub in s] *)
Fixpoint contains (sub s : string) : bool :=
  starts sub s ||
  match s with
  | EmptyString => false
  | String _ s' => contains sub s'
  end.

(** [s.replace(old, new)] for a non-empty [old]: the occurrences of [old]
    are found from the left and do not overlap.  [skip] counts the
    characters of a match that are still to be dropped. *)
Fixpoint replace_go (old new : string) (skip : nat) (s : string) : string :=
  match s with
  | EmptyString => EmptyString
  | String c s' =>
      match skip with
      | S k => replace_go old new k s'
      | O =>
          if starts old s
          then new +:+ replace_go old new (String.length old - 1) s'
          else String c (replace_go old new 0 s')
      end
  end.

(** With an empty [old] Python puts [new] before every character and at
    the end. *)
Fixpoint intersperse (new s : string) : string :=
  match s with
  | EmptyString => new
  | String c s' => new +:+ String c (intersperse new s')
  end.

Definition replace (old new s : string) : string :=
  match old with
  | EmptyString => intersperse new s
  | String _ _ => replace_go old new 0 s
  end.

(** [s.split(sep)] for a non-empty [sep] (every call of the script passes
    the two-character CR LF).  The result is never empty: its head is the
    piece being read. *)
Fixpoint split_go (sep : string) (skip : nat) (s : string) : list string :=
  match s with
  | EmptyString => [EmptyString]
  | String c s' =>
      match skip with
      | S k => split_go sep k s'
      | O =>
          if starts sep s
          then EmptyString :: split_go sep (String.length sep - 1) s'
          else match split_go sep 0 s' with
               | p :: ps => String c p :: ps
               | [] => [String c EmptyString]
               end
      end
  end.

Definition split (sep s : string) : list string := split_go sep 0 s.

(** [sep.join(xs)] *)
Fixpoint join (sep : string) (xs : list string) : string :=
  match xs with
  | [] => EmptyString
  | [x] => x
  | x :: rest => x +:+ sep +:+ join sep rest
  end.

(** [l[i]] for [i >= 0] *)
Definition getitem {A : Type} (l : list A) (i : nat) : result A :=
  match l !! i with
  | Some x => Ok x
  | None => Raise IndexError
  end.

(** [l[i] = x] for [i >= 0] *)
Definition setitem {A : Type} (l : list A) (i : nat) (x : A) : result (list A) :=
  if decide (i < length l) then Ok (<[i:=x]> l) else Raise IndexError.

(** [del l[i]] for [i >= 0] *)
Definition delitem {A : Type} (l : list A) (i : nat) : result (list A) :=
  if decide (i < length l) then Ok (delete i l) else Raise IndexError.

(** [l[:3]] *)
Definition first3 {A : Type} (l : list A) : list A := take 3 l.

(** [l[-3:]]: the last three items, or all of them when there are fewer. *)
Definition last3 {A : Type} (l : list A) : list A := drop (length l - 3) l.

(** [l[:-2]]: all but the last two items; a slice never raises, and a
    list of fewer than two items gives the empty list. *)
Definition but_last2 {A : Type} (l : list A) : list A := take (length l - 2) l.

(** [l[1:]] *)
Definition from1 {A : Type} (l : list A) : list A := drop 1 l.

(** [l.pop(0)]: the first item, and the list without it. *)
Definition pop0 {A : Type} (l : list A) : result (A * list A) :=
  match l with
  | [] => Raise IndexError
  | x :: rest => Ok (x, rest)
  end.

End Py.

(** ** The text constants of the script *)

Definition dq : string := String "034" EmptyString.
Definition CRLF : string := String "013" (String "010" EmptyString).
Definition LF : string := String "010" EmptyString.

(** dollar, space, double quote, closing bracket *)
Definition prompt_end : string := "$ " +:+ dq +:+ "]".
(** backslash, r, backslash, n between double quotes, then a closing
    bracket: the payload of an event that is a bare newline *)
Definition bare_newline : string := dq +:+ "\r\n" +:+ dq +:+ "]".
(** a hash between double quotes *)
Definition hash_payload : string := dq +:+ "#" +:+ dq.
Definition prompt : string := "$ ".
Definition dim : string := "\u001b[39;2m".
Definition esc_newline : string := "\r\n".
Definition reset : string := "\u001b[0m".
Definition blue_prompt : string := "\u001b[34m$\u001b[0m ".
Definition marker : string := "go: added github.com/".
Definition ellipsis : string := "...".


(** ** Decoded JSON values and the operations the script applies to them *)

(** What [json.loads] returns.  An integer is a Python [int]; a number
    with a fraction or an exponent is kept by its literal, since the
    script never looks inside a number.  An object keeps its members in
    insertion order. *)
Inductive value : Type :=
  | JNull
  | JBool (b : bool)
  | JInt (z : Z)
  | JFloat (lit : string)
  | JStr (s : string)
  | JArr (items : list value)
  | JObj (members : list (string * value)).

(** A byte of the form 10xxxxxx continues a UTF-8 code point. *)
Definition is_continuation (c : ascii) : bool :=
  (128 <=? nat_of_ascii c) && (nat_of_ascii c <? 192).

(** The code points of a text, each as the bytes that encode it. *)
Fixpoint codepoints (s : string) : list string :=
  match s with
  | EmptyString => []
  | String c s' =>
      let continued :=
        match s' with
        | String d _ => is_continuation d
        | EmptyString => false
        end in
      match codepoints s' with
      | p :: ps =>
          if continued then String c p :: ps
          else String c EmptyString :: p :: ps
      | [] => [String c EmptyString]
      end
  end.

(** [v[i]] for a constant [i >= 0]: a list or a string is indexed, an
    object has only string keys, and nothing else can be subscripted. *)
Definition subscript (v : value) (i : nat) : result value :=
  match v with
  | JArr items => Py.getitem items i
  | JStr s => c ← Py.getitem (codepoints s) i; Ok (JStr c)
  | JObj _ => Raise KeyError
  | JNull | JBool _ | JInt _ | JFloat _ => Raise TypeError
  end.

(** [v.split(sep)]: only a string has the method. *)
Definition split_method (v : value) (sep : string) : result (list string) :=
  match v with
  | JStr s => Ok (Py.split sep s)
  | _ => Raise AttributeError
  end.

(** [v[i] = x] for a constant [i >= 0].  A string is immutable.  An
    object would get the integer key, which [json.dumps] writes as the
    decimal string. *)
Definition store (v : value) (i : nat) (x : value) : result value :=
  match v with
  | JArr items => items' ← Py.setitem items i x; Ok (JArr items')
  | JObj members => Ok (JObj (members ++ [(pretty i, x)]))
  | JNull | JBool _ | JInt _ | JFloat _ | JStr _ => Raise TypeError
  end.

(** The digits of the mantissa of a number literal are all zero. *)
Fixpoint zero_mantissa (lit : string) : bool :=
  match lit with
  | EmptyString => true
  | String c lit' =>
      if Ascii.eqb c "e" || Ascii.eqb c "E" then true
      else if Ascii.eqb c "-" || Ascii.eqb c "." || Ascii.eqb c "0"
           then zero_mantissa lit'
           else false
  end.

(** [bool(v)], the test of an [if].  (A float literal that underflows to
    zero is not told apart; the script never tests a number.) *)
Definition truthy (v : value) : bool :=
  match v with
  | JNull => false
  | JBool b => b
  | JInt z => negb (Z.eqb z 0)
  | JFloat lit => negb (zero_mantissa lit)
  | JStr s => negb (String.eqb s EmptyString)
  | JArr items => negb (Nat.eqb (length items) 0)
  | JObj members => negb (Nat.eqb (length members) 0)
  end.

(** ** The script *)

(** The three variables of the ellipsizing scan. *)
Record scan_state : Type := {
  packages : list string;
  package_row : option value;
  package_del : list nat
}.

Section Script.

(** [json.loads] and [json.dumps] of the standard library. *)
Variable loads : string -> result value.
Variable dumps : value -> string.

(** The body of the first loop: the prompt of line [i] is rewritten
    after a look at line [i+1], then every escaped newline of line [i]
    gets a reset. *)
Definition annotate_body (i : nat) (lines : list string) : result (list string) :=
  li ← Py.getitem lines i;
  lines ←
    (if Py.contains prompt_end li then
       if i <? length lines - 1 then
         nx ← Py.getitem lines (i + 1);
         lines ←
           (if Py.contains bare_newline nx then
              li ← Py.getitem lines i;
              Py.setitem lines i (Py.replace prompt EmptyString li)
            else Ok lines);
         nx ← Py.getitem lines (i + 1);
         (if Py.contains hash_payload nx then
            li ← Py.getitem lines i;
            Py.setitem lines i (Py.replace prompt dim li)
          else Ok lines)
       else Ok lines
     else Ok lines);
  li ← Py.getitem lines i;
  Py.setitem lines i (Py.replace esc_newline (esc_newline +:+ reset) li).

Definition annotate (lines : list string) : result (list string) :=
  for_range (length lines) annotate_body lines.

(** The body of the second loop: colorize the prompts that are left. *)
Definition colorize_body (i : nat) (lines : list string) : result (list string) :=
  li ← Py.getitem lines i;
  Py.setitem lines i (Py.replace prompt blue_prompt li).

Definition colorize (lines : list string) : result (list string) :=
  for_range (length lines) colorize_body lines.

(** The body of the third loop, over the lines as they are now. *)
Definition scan_body (lines : list string) (i : nat) (st : scan_state)
    : result scan_state :=
  li ← Py.getitem lines i;
  if Py.contains marker li then
    data ← loads li;
    payload ← subscript data 2;
    entries ← split_method payload CRLF;
    Ok {| packages := packages st ++ entries;
          package_row := match package_row st with
                         | None => Some data
                         | Some row => Some row
                         end;
          package_del := package_del st ++ [i] |}
  else Ok st.

Definition scan (lines : list string) : result scan_state :=
  for_range (length lines) (scan_body lines)
    {| packages := []; package_row := None; package_del := [] |}.

(** [packages[:3] + ["..."] + packages[-3:]] *)
Definition ellipsize (packages : list string) : list string :=
  Py.first3 packages ++ [ellipsis] ++ Py.last3 packages.

(** The [if package_row:] block. *)
Definition summarize (st : scan_state) (lines : list string)
    : result (list string) :=
  match package_row st with
  | Some row =>
      if truthy row then
        row' ← store row 2 (JStr (Py.join CRLF (ellipsize (packages st))));
        first ← Py.getitem (package_del st) 0;
        Py.setitem lines first (dumps row' +:+ LF)
      else Ok lines
  | None => Ok lines
  end.

(** The last loop: the other package lines go, highest index first. *)
Definition prune (st : scan_state) (lines : list string) : result (list string) :=
  for_loop (rev (Py.from1 (package_del st))) (fun i ls => Py.delitem ls i) lines.

(** The two recolouring loops. *)
Definition recolor (lines : list string) : result (list string) :=
  lines ← annotate lines;
  colorize lines.

(** The ellipsizing of the package lines. *)
Definition collapse (lines : list string) : result (list string) :=
  st ← scan lines;
  lines ← summarize st lines;
  prune st lines.

(** The line sequence after all passes, before it is printed. *)
Definition transform (lines : list string) : result (list string) :=
  lines ← recolor lines;
  collapse lines.

(** What [print] writes: the lines but the last two, and a newline. *)
Definition emit (lines : list string) : string :=
  Py.join EmptyString (Py.but_last2 lines) +:+ LF.

(** The script, from the lines [readlines] returned to the text on
    standard output. *)
Definition main (lines : list string) : result string :=
  lines ← transform lines;
  Ok (emit lines).

End Script.

(** ** The JSON codec of the standard library

    A model of [json.loads] and [json.dumps] with their default
    options, after the scanner and the decoder of the [json] package:
    [scanstring], [scan_once], the array and the object loops.  The
    interpreter's recursion limit and its limit on the number of digits
    of an integer are not modelled, so the model decodes some texts on
    which the library raises; the fuel given by [loads] is enough for
    every text.  A float is kept as its literal, and written back as
    such, where the library writes the shortest form of its value. *)

Module Json.

Definition quote : ascii := "034".
Definition backslash : ascii := "\".

Definition is_ws (c : ascii) : bool :=
  Ascii.eqb c " " || Ascii.eqb c "009" || Ascii.eqb c "010" || Ascii.eqb c "013".

Fixpoint skip_ws (s : string) : string :=
  match s with
  | EmptyString => EmptyString
  | String c r => if is_ws c then skip_ws r else s
  end.

(** The rest of [s] after the prefix [p], when [s] starts with it. *)
Fixpoint strip_prefix (p s : string) : option string :=
  match p, s with
  | EmptyString, _ => Some s
  | String a p', String b s' => if Ascii.eqb a b then strip_prefix p' s' else None
  | String _ _, EmptyString => None
  end.

Definition is_digit (c : ascii) : bool :=
  (48 <=? N_of_ascii c)%N && (N_of_ascii c <=? 57)%N.

Definition hex_digit (c : ascii) : option N :=
  let n := N_of_ascii c in
  if (48 <=? n)%N && (n <=? 57)%N then Some (n - 48)%N
  else if (65 <=? n)%N && (n <=? 70)%N then Some (n - 55)%N
  else if (97 <=? n)%N && (n <=? 102)%N then Some (n - 87)%N
  else None.

(** The four hexadecimal digits of a [\u] escape. *)
Definition hex4 (a b c d : ascii) : result N :=
  match hex_digit a, hex_digit b, hex_digit c, hex_digit d with
  | Some x, Some y, Some z, Some w => Ok (((x * 16 + y) * 16 + z) * 16 + w)%N
  | _, _, _, _ => Raise JSONDecodeError
  end.

Definition byte (n : N) : ascii := ascii_of_N n.

(** The UTF-8 bytes of a code point (a lone surrogate is encoded like
    any other three-byte code point). *)
Definition utf8 (cp : N) : string :=
  if (cp <? 128)%N then String (byte cp) EmptyString
  else if (cp <? 2048)%N then
    String (byte (192 + cp / 64)) (String (byte (128 + cp mod 64)) EmptyString)
  else if (cp <? 65536)%N then
    String (byte (224 + cp / 4096))
      (String (byte (128 + (cp / 64) mod 64))
         (String (byte (128 + cp mod 64)) EmptyString))
  else
    String (byte (240 + cp / 262144))
      (String (byte (128 + (cp / 4096) mod 64))
         (String (byte (128 + (cp / 64) mod 64))
            (String (byte (128 + cp mod 64)) EmptyString))).

(** The character a one-letter escape stands for. *)
Definition unescape (e : ascii) : result ascii :=
  if Ascii.eqb e quote then Ok quote
  else if Ascii.eqb e backslash then Ok backslash
  else if Ascii.eqb e "/" then Ok "/"%char
  else if Ascii.eqb e "b" then Ok "008"%char
  else if Ascii.eqb e "f" then Ok "012"%char
  else if Ascii.eqb e "n" then Ok "010"%char
  else if Ascii.eqb e "r" then Ok "013"%char
  else if Ascii.eqb e "t" then Ok "009"%char
  else Raise JSONDecodeError.

Definition is_high_surrogate (u : N) : bool := (55296 <=? u)%N && (u <=? 56319)%N.
Definition is_low_surrogate (u : N) : bool := (56320 <=? u)%N && (u <=? 57343)%N.

(** The low half of a surrogate pair at the head of [s], with the text
    after it.  A malformed [\u] escape there is an error; anything else
    leaves the high half alone. *)
Definition low_half (s : string) : result (option (N * string)) :=
  match s with
  | String b (String u (String h1 (String h2 (String h3 (String h4 r))))) =>
      if Ascii.eqb b backslash && Ascii.eqb u "u" then
        lo ← hex4 h1 h2 h3 h4;
        Ok (if is_low_surrogate lo then Some (lo, r) else None)
      else Ok None
  | _ => Ok None
  end.

(** [scanstring]: the text after an opening quote is decoded up to the
    closing quote (strict mode: a raw control character is an error).
    Returns the decoded string and the text after the closing quote. *)
Fixpoint scanstring (s : string) : result (string * string) :=
  match s with
  | EmptyString => Raise JSONDecodeError
  | String c r =>
      if Ascii.eqb c quote then Ok (EmptyString, r)
      else if Ascii.eqb c backslash then
        match r with
        | EmptyString => Raise JSONDecodeError
        | String e r1 =>
            if Ascii.eqb e "u" then
              match r1 with
              | String h1 (String h2 (String h3 (String h4 r2))) =>
                  uni ← hex4 h1 h2 h3 h4;
                  pair ← (if is_high_surrogate uni then low_half r2 else Ok None);
                  match pair, r2 with
                  | Some (lo, _),
                    String _ (String _ (String _ (String _ (String _ (String _ r3))))) =>
                      '(p, rest) ← scanstring r3;
                      Ok (utf8 (65536 + ((uni - 55296) * 1024 + (lo - 56320)))%N +:+ p,
                          rest)
                  | _, _ =>
                      '(p, rest) ← scanstring r2;
                      Ok (utf8 uni +:+ p, rest)
                  end
              | _ => Raise JSONDecodeError
              end
            else
              ch ← unescape e;
              '(p, rest) ← scanstring r1;
              Ok (String ch p, rest)
        end
      else if (N_of_ascii c <? 32)%N then Raise JSONDecodeError
      else
        '(p, rest) ← scanstring r;
        Ok (String c p, rest)
  end.

(** The longest prefix of digits, and the rest. *)
Fixpoint span_digits (s : string) : string * string :=
  match s with
  | EmptyString => (EmptyString, EmptyString)
  | String c r =>
      if is_digit c
      then let '(ds, rest) := span_digits r in (String c ds, rest)
      else (EmptyString, s)
  end.

Definition digits_value (ds : string) : Z :=
  fold_left (fun acc c => (acc * 10 + Z.of_N (N_of_ascii c - 48))%Z)
    (list_ascii_of_string ds) 0%Z.

(** The integer part of a number: a single zero, or digits that do not
    start with zero. *)
Definition scan_int_part (s : string) : option (string * string) :=
  match s with
  | EmptyString => None
  | String c r =>
      if Ascii.eqb c "0" then Some (String c EmptyString, r)
      else if is_digit c then Some (span_digits s)
      else None
  end.

(** An optional fraction: a dot and at least one digit. *)
Definition scan_frac (s : string) : string * string :=
  match s with
  | String c r =>
      if Ascii.eqb c "." then
        match span_digits r with
        | (EmptyString, _) => (EmptyString, s)
        | (ds, rest) => (String c ds, rest)
        end
      else (EmptyString, s)
  | EmptyString => (EmptyString, s)
  end.

(** An optional exponent: e or E, an optional sign, at least one digit. *)
Definition scan_exp (s : string) : string * string :=
  match s with
  | String c r =>
      if Ascii.eqb c "e" || Ascii.eqb c "E" then
        let '(sign, r1) :=
          match r with
          | String g r' =>
              if Ascii.eqb g "-" || Ascii.eqb g "+"
              then (String g EmptyString, r') else (EmptyString, r)
          | EmptyString => (EmptyString, r)
          end in
        match span_digits r1 with
        | (EmptyString, _) => (EmptyString, s)
        | (ds, rest) => (String c (sign +:+ ds), rest)
        end
      else (EmptyString, s)
  | EmptyString => (EmptyString, s)
  end.

(** The number at the head of [s], if there is one. *)
Definition scan_number (s : string) : option (value * string) :=
  let '(neg, s1) :=
    match s with
    | String c r => if Ascii.eqb c "-" then (true, r) else (false, s)
    | EmptyString => (false, s)
    end in
  match scan_int_part s1 with
  | None => None
  | Some (int, r1) =>
      let '(frac, r2) := scan_frac r1 in
      let '(exp, r3) := scan_exp r2 in
      match frac, exp with
      | EmptyString, EmptyString =>
          Some (JInt (if neg then - digits_value int else digits_value int)%Z, r3)
      | _, _ =>
          Some (JFloat ((if neg then "-" else EmptyString) +:+ int +:+ frac +:+ exp), r3)
      end
  end.

(** The literals and the numbers. *)
Definition scan_atom (s : string) : result (value * string) :=
  match strip_prefix "null" s with
  | Some r => Ok (JNull, r)
  | None =>
  match strip_prefix "true" s with
  | Some r => Ok (JBool true, r)
  | None =>
  match strip_prefix "false" s with
  | Some r => Ok (JBool false, r)
  | None =>
  match scan_number s with
  | Some res => Ok res
  | None =>
  match strip_prefix "NaN" s with
  | Some r => Ok (JFloat "NaN", r)
  | None =>
  match strip_prefix "Infinity" s with
  | Some r => Ok (JFloat "Infinity", r)
  | None =>
  match strip_prefix "-Infinity" s with
  | Some r => Ok (JFloat "-Infinity", r)
  | None => Raise JSONDecodeError
  end end end end end end end.

(** [dict(pairs)]: a repeated key keeps its place and takes the later
    value. *)
Fixpoint dict_set (k : string) (v : value) (d : list (string * value))
    : list (string * value) :=
  match d with
  | [] => [(k, v)]
  | (k', v') :: d' =>
      if String.eqb k k' then (k', v) :: d' else (k', v') :: dict_set k v d'
  end.

(** [scan_once] with the array and the object loops.  [scan_array] is
    entered at the first character of an item, [scan_object] just after
    the opening quote of a key. *)
Fixpoint scan_once (fuel : nat) (s : string) : result (value * string) :=
  match fuel with
  | O => Raise RecursionError
  | S fuel =>
      match s with
      | EmptyString => Raise JSONDecodeError
      | String c r =>
          if Ascii.eqb c quote then
            '(str, rest) ← scanstring r;
            Ok (JStr str, rest)
          else if Ascii.eqb c "{" then
            match skip_ws r with
            | String c' r' =>
                if Ascii.eqb c' "}" then Ok (JObj [], r')
                else if Ascii.eqb c' quote then scan_object fuel [] r'
                else Raise JSONDecodeError
            | EmptyString => Raise JSONDecodeError
            end
          else if Ascii.eqb c "[" then
            match skip_ws r with
            | String c' r' =>
                if Ascii.eqb c' "]" then Ok (JArr [], r')
                else scan_array fuel [] (String c' r')
            | EmptyString => Raise JSONDecodeError
            end
          else scan_atom s
      end
  end
with scan_array (fuel : nat) (acc : list value) (s : string)
    : result (value * string) :=
  match fuel with
  | O => Raise RecursionError
  | S fuel =>
      '(v, r) ← scan_once fuel s;
      match skip_ws r with
      | String c r' =>
          if Ascii.eqb c "]" then Ok (JArr (acc ++ [v]), r')
          else if Ascii.eqb c "," then scan_array fuel (acc ++ [v]) (skip_ws r')
          else Raise JSONDecodeError
      | EmptyString => Raise JSONDecodeError
      end
  end
with scan_object (fuel : nat) (acc : list (string * value)) (s : string)
    : result (value * string) :=
  match fuel with
  | O => Raise RecursionError
  | S fuel =>
      '(key, r) ← scanstring s;
      match skip_ws r with
      | String c r1 =>
          if Ascii.eqb c ":" then
            '(v, r2) ← scan_once fuel (skip_ws r1);
            match skip_ws r2 with
            | String c2 r3 =>
                if Ascii.eqb c2 "}" then Ok (JObj (dict_set key v acc), r3)
                else if Ascii.eqb c2 "," then
                  match skip_ws r3 with
                  | String c3 r4 =>
                      if Ascii.eqb c3 quote
                      then scan_object fuel (dict_set key v acc) r4
                      else Raise JSONDecodeError
                  | EmptyString => Raise JSONDecodeError
                  end
                else Raise JSONDecodeError
            | EmptyString => Raise JSONDecodeError
            end
          else Raise JSONDecodeError
      | EmptyString => Raise JSONDecodeError
      end
  end.

(** [json.loads(s)]: one value between optional white space, and
    nothing after it. *)
Definition loads (s : string) : result value :=
  '(v, r) ← scan_once (2 * String.length s + 1) (skip_ws s);
  match skip_ws r with
  | EmptyString => Ok v
  | String _ _ => Raise JSONDecodeError
  end.

(** The encoder, with [ensure_ascii] and the separators of the default
    call. *)

Definition hex_char (n : N) : ascii :=
  if (n <? 10)%N then byte (48 + n) else byte (87 + n).

(** [\uXXXX] in lower-case hexadecimal *)
Definition u_escape (u : N) : string :=
  "\u" +:+
  String (hex_char (u / 4096))
    (String (hex_char ((u / 256) mod 16))
       (String (hex_char ((u / 16) mod 16))
          (String (hex_char (u mod 16)) EmptyString))).

(** The code point that the bytes of [p] encode. *)
Definition codepoint_value (p : string) : N :=
  match p with
  | EmptyString => 0%N
  | String b0 rest =>
      let n := N_of_ascii b0 in
      let lead :=
        if (n <? 128)%N then n
        else if (n <? 224)%N then (n - 192)%N
        else if (n <? 240)%N then (n - 224)%N
        else (n - 240)%N in
      fold_left (fun acc c => (acc * 64 + (N_of_ascii c - 128))%N)
        (list_ascii_of_string rest) lead
  end.

Definition escape_codepoint (p : string) : string :=
  let cp := codepoint_value p in
  if (cp =? 34)%N then String backslash (String quote EmptyString)
  else if (cp =? 92)%N then "\\"
  else if (cp =? 10)%N then "\n"
  else if (cp =? 13)%N then "\r"
  else if (cp =? 9)%N then "\t"
  else if (cp =? 8)%N then "\b"
  else if (cp =? 12)%N then "\f"
  else if (32 <=? cp)%N && (cp <=? 126)%N then p
  else if (cp <? 65536)%N then u_escape cp
  else u_escape (55296 + (cp - 65536) / 1024) +:+
       u_escape (56320 + (cp - 65536) mod 1024).

Definition encode_string (s : string) : string :=
  String quote
    (fold_right (fun p acc => escape_codepoint p +:+ acc)
       (String quote EmptyString) (codepoints s)).

(** [json.dumps(v)].  A float is written by its literal, which is what
    [repr] gives for a literal in shortest form. *)
Fixpoint dumps (v : value) : string :=
  match v with
  | JNull => "null"
  | JBool true => "true"
  | JBool false => "false"
  | JInt z => pretty z
  | JFloat lit => lit
  | JStr s => encode_string s
  | JArr items => "[" +:+ Py.join ", " (List.map dumps items) +:+ "]"
  | JObj members =>
      "{" +:+
      Py.join ", "
        (List.map (fun kv => encode_string (fst kv) +:+ ": " +:+ dumps (snd kv))
           members) +:+
      "}"
  end.

End Json.

Definition ex_row : string :=
  "[" +:+ dq +:+ "o" +:+ dq +:+ ", 1.5, " +:+ dq +:+
  "go: added github.com/a\r\ngo: added github.com/b" +:+ dq +:+ "]" +:+ LF.

(** ** benchmark/fastapi/main.py: the dependency of the benchmark route *)

(** [processed_header]: the authorization header, split at the spaces,
    and the first piece popped off. *)
Definition processed_header (authorization : string) : result string :=
  '(first, _) ← Py.pop0 (Py.split " " authorization);
  Ok first.

(** ** The loops, line by line

    Closed forms of the two recolouring loops, proved equal to them
    below. *)

(** What the first loop does to the prompt markers of the line [li],
    given the line after it: a function of the text it is applied to. *)
Definition prompt_rewriter (li : string) (next : option string)
    : string -> string :=
  if Py.contains prompt_end li then
    match next with
    | Some nx => fun x =>
        let x' :=
          if Py.contains bare_newline nx
          then Py.replace prompt EmptyString x else x in
        if Py.contains hash_payload nx then Py.replace prompt dim x' else x'
    | None => fun x => x
    end
  else fun x => x.

Definition rewrite_prompt (li : string) (next : option string) : string :=
  prompt_rewriter li next li.

Definition annotate_newlines (li : string) : string :=
  Py.replace esc_newline (esc_newline +:+ reset) li.

Definition colorize_line (li : string) : string :=
  Py.replace prompt blue_prompt li.

Fixpoint annotated (lines : list string) : list string :=
  match lines with
  | [] => []
  | li :: rest => annotate_newlines (rewrite_prompt li (head rest)) :: annotated rest
  end.

(** The two recolouring loops together. *)
Definition recolored (lines : list string) : list string :=
  colorize_line <$> annotated lines.

(** ** Occurrences

    Predicates on texts used to state what the replacements do. *)

(** [w] and [n] differ at a position both have: [w] is then no prefix of
    [n] followed by anything. *)
Fixpoint diverge (w n : string) : bool :=
  match w, n with
  | String a w', String b n' => if Ascii.eqb a b then diverge w' n' else true
  | _, _ => false
  end.

(** [P] holds of every non-empty suffix of [s]. *)
Fixpoint every_suffix (P : string -> bool) (s : string) : bool :=
  match s with
  | EmptyString => true
  | String _ s' => P s && every_suffix P s'
  end.

(** Every occurrence of [q] in [s] is immediately followed by [f]. *)
Fixpoint followed (q f : string) (s : string) : bool :=
  (if Py.starts q s then Py.starts (q +:+ f) s else true) &&
  match s with
  | EmptyString => true
  | String _ s' => followed q f s'
  end.

(** ** Sample recordings *)

(** One output event of a recording: time, channel, payload. *)
Definition event (time payload : string) : string :=
  "[" +:+ time +:+ ", " +:+ dq +:+ "o" +:+ dq +:+ ", " +:+
  dq +:+ payload +:+ dq +:+ "]" +:+ LF.

(** A prompt followed by a bare newline. *)
Definition rec_prompt_newline : list string :=
  [event "0.1" "$ "; event "0.2" "\r\n"].

(** A prompt followed by a comment. *)
Definition rec_prompt_comment : list string :=
  [event "0.1" "$ "; event "0.2" "#"].

(** A prompt after two dollars and two spaces, followed by a bare
    newline. *)
Definition rec_double_dollar : list string :=
  [event "0.1" "$$  $ "; event "0.2" "\r\n"].

(** Two halves of a package marker around a prompt, before a bare
    newline. *)
Definition rec_marker_made : list string :=
  [event "0.1" "go: added$  github.com/x $ "; event "0.2" "\r\n"].

(** Output with a prompt in it and no prompt at its end. *)
Definition rec_plain : list string :=
  [event "0.1" "cost: 5$ each"; event "0.2" "done"].

(** ** The ellipsizing scan, line by line *)

(** A package-addition line: its text holds the marker. *)
Definition pkg_line (l : string) : bool := Py.contains marker l.

(** What the scan reads off one package line: the entries of its
    payload. *)
Definition entries_of (loads : string -> result value) (l : string)
    : result (list string) :=
  data ← loads l;
  payload ← subscript data 2;
  split_method payload CRLF.

(** The indices of the package lines of [lines], counted from [k]. *)
Fixpoint indices_from (k : nat) (lines : list string) : list nat :=
  match lines with
  | [] => []
  | l :: rest =>
      if pkg_line l then k :: indices_from (S k) rest
      else indices_from (S k) rest
  end.

Definition pkg_indices (lines : list string) : list nat := indices_from 0 lines.

(** The scan from line [k] on, as a recursion over the lines left. *)
Fixpoint scan_from (loads : string -> result value) (k : nat)
    (rest : list string) (st : scan_state) : result scan_state :=
  match rest with
  | [] => Ok st
  | l :: rest' =>
      st' ← (if pkg_line l then
               data ← loads l;
               payload ← subscript data 2;
               entries ← split_method payload CRLF;
               Ok {| packages := packages st ++ entries;
                     package_row := match package_row st with
                                    | None => Some data
                                    | Some row => Some row
                                    end;
                     package_del := package_del st ++ [k] |}
             else Ok st);
      scan_from loads (S k) rest' st'
  end.

Definition scan_init : scan_state :=
  {| packages := []; package_row := None; package_del := [] |}.

(** A recording with two package lines between other output. *)
Definition rec_packages : list string :=
  [event "0.1" "$ go get";
   event "0.2" "go: added github.com/a v1\r\ngo: added github.com/b v1\r\n";
   event "0.3" "working";
   event "0.4" "go: added github.com/c v1\r\ngo: added github.com/d v1\r\ngo: added github.com/e v1";
   event "0.5" "$ ";
   event "0.6" "exit";
   event "0.7" "logout"].

(** A recording that ends with its package line. *)
Definition rec_package_last : list string :=
  [event "0.1" "go get";
   event "0.2" "go: added github.com/a v1";
   event "0.3" "exit"].

(** A package line that is not JSON. *)
Definition rec_broken : list string :=
  [event "0.1" "go get"; "go: added github.com/a v1" +:+ LF; event "0.3" "exit"].

(** A package line whose array has two items. *)
Definition rec_short : list string :=
  [event "0.1" "go get";
   "[0.2, " +:+ dq +:+ "go: added github.com/a v1" +:+ dq +:+ "]" +:+ LF;
   event "0.3" "exit"].

(** The record decoded from the first package line, when there is one
    and it decodes. *)
Definition first_row (loads : string -> result value) (lines : list string)
    : option value :=
  match filter (fun l => pkg_line l = true) lines with
  | l :: _ => match loads l with Ok data => Some data | Raise _ => None end
  | [] => None
  end.

(** ** Resets in the decoded payloads *)

(** What the escape sequence [reset] decodes to: ESC [ 0 m. *)
Definition reset_code : string := String "027" "[0m".

(** The line writes no CR and no LF as a four-digit escape. *)
Definition plain_newline_escapes (s : string) : bool :=
  negb (Py.contains "\u000a" s) && negb (Py.contains "\u000A" s) &&
  negb (Py.contains "\u000d" s) && negb (Py.contains "\u000D" s).

(** What the decoder may be given when it reads a recoloured line: every
    escaped newline is followed by the escaped reset, and no CR or LF is
    written as a four-digit escape. *)
Definition annotated_text (s : string) : bool :=
  followed esc_newline reset s && plain_newline_escapes s.

(** In every string of [v] that can be the payload of a record (the
    strings of arrays, at any depth), CR LF is followed by the reset. *)
Fixpoint strings_followed (v : value) : bool :=
  match v with
  | JStr s => followed CRLF reset_code s
  | JArr items => forallb strings_followed items
  | JNull | JBool _ | JInt _ | JFloat _ | JObj _ => true
  end.

(** Every character of [s] satisfies [P]. *)
Fixpoint all_chars (P : ascii -> bool) (s : string) : bool :=
  match s with
  | EmptyString => true
  | String c s' => P c && all_chars P s'
  end.

(** [r] is what is left of [s] after some of it was read. *)
Definition rest_of (r s : string) : Prop := exists u, s = u +:+ r.

(** A recording whose package line writes CR LF as four-digit escapes. *)
Definition rec_unicode_newline : list string :=
  [event "0.1" "go: added github.com/a v1\u000d\u000ago: added github.com/b v1";
   event "0.2" "exit";
   event "0.3" "logout"].

(** A recording whose first package line is a JSON string, not an
    array. *)
Definition rec_string_row : list string :=
  [event "0.1" "go get";
   dq +:+ "go: added github.com/a v1" +:+ dq +:+ LF;
   event "0.3" "exit"].

(** ** docs/main.py: the macro that embeds a recording in a page *)

(** The values an option of the player can have.  A float stands by the
    text [str] gives for it. *)
Inductive pyval : Type :=
  | PBool (b : bool)
  | PInt (z : Z)
  | PFloat (repr : string)
  | PStr (s : string).

(** [str(value)] *)
Definition str_of (value : pyval) : string :=
  match value with
  | PBool true => "True"
  | PBool false => "False"
  | PInt z => pretty z
  | PFloat repr => repr
  | PStr s => s
  end.

(** [s.lower()] on ASCII text (it is applied to the two texts that
    [str] gives for a boolean). *)
Definition lower_char (c : ascii) : ascii :=
  let n := N_of_ascii c in
  if (65 <=? n)%N && (n <=? 90)%N then ascii_of_N (n + 32) else c.

Fixpoint lower (s : string) : string :=
  match s with
  | EmptyString => EmptyString
  | String c s' => String (lower_char c) (lower s')
  end.

(** [value_str] *)
Definition value_str (value : pyval) : string :=
  let s := str_of value in
  match value with
  | PBool _ => lower s
  | _ => s
  end.

(** [d[k] = v] on a dictionary kept in insertion order. *)
Fixpoint dict_setitem {V : Type} (k : string) (v : V) (d : list (string * V))
    : list (string * V) :=
  match d with
  | [] => [(k, v)]
  | (k', v') :: d' =>
      if String.eqb k k' then (k', v) :: d' else (k', v') :: dict_setitem k v d'
  end.

(** The options the macro starts from. *)
Definition default_opts : list (string * pyval) :=
  [("autoPlay", PBool true);
   ("controls", PStr "'auto'");
   ("loop", PBool false);
   ("theme", PStr "'nord'");
   ("terminalLineHeight", PFloat "1.4")].

(** The loop over the keyword arguments, from any dictionary. *)
Definition update_opts (d kwargs : list (string * pyval)) : list (string * pyval) :=
  fold_left (fun opts kv => dict_setitem kv.1 kv.2 opts) kwargs d.

(** Overwrite defaults with kwargs. *)
Definition merged_opts (kwargs : list (string * pyval)) : list (string * pyval) :=
  update_opts default_opts kwargs.

(** One option of the player, as the macro writes it. *)
Definition option_js (kv : string * pyval) : string :=
  dq +:+ kv.1 +:+ dq +:+ ": " +:+ value_str kv.2 +:+ ",".

Definition create_player_js (div_id file : string)
    (opts : list (string * pyval)) : string :=
  fold_left (fun js kv => js +:+ option_js kv) opts
    ("AsciinemaPlayer.create('" +:+ file +:+
     "', document.getElementById('" +:+ div_id +:+ "'), {")
  +:+ "});".

(** The macro [asciinema(file, **kwargs)]; [uuid4] is the text of the
    random identifier it draws. *)
Definition asciinema (uuid4 : string) (file : string)
    (kwargs : list (string * pyval)) : string :=
  let opts := merged_opts kwargs in
  let div_id := "asciinema-" +:+ uuid4 in
  let div_style := "z-index: 1; position: relative;" in
  let html :=
    "<div id=" +:+ dq +:+ div_id +:+ dq +:+ " style=" +:+ dq +:+ div_style
    +:+ dq +:+ "></div>" in
  let js := create_player_js div_id file opts in
  html +:+ "<script>" +:+
  "if (document.readyState === 'loading') {" +:+
  "document.addEventListener('DOMContentLoaded', function() {" +:+
  js +:+ "});" +:+ "} else {" +:+ js +:+ "}" +:+ "</script>".

(** * Properties *)

(** ** The built-ins and the codec on small inputs *)

Example replace_ex1 : Py.replace "$ " EmptyString ("$$  $ " +:+ dq +:+ "]") = prompt_end.
Proof. reflexivity. Qed.

Example replace_ex2 : Py.replace "ab" "x" "aabab" = "axx".
Proof. reflexivity. Qed.

Example replace_ex3 : Py.replace "aa" "b" "aaa" = "ba".
Proof. reflexivity. Qed.

Example replace_ex4 : Py.replace EmptyString "-" "abc" = "-a-b-c-".
Proof. reflexivity. Qed.

Example split_ex1 : Py.split "--" "a--b----c-" = ["a"; "b"; EmptyString; "c-"].
Proof. reflexivity. Qed.

Example split_ex2 : Py.split CRLF EmptyString = [EmptyString].
Proof. reflexivity. Qed.

Example join_ex1 : Py.join ", " ["a"; "b"; "c"] = "a, b, c".
Proof. reflexivity. Qed.

Example loads_ex1 :
  Json.loads ex_row =
  Ok (JArr [JStr "o"; JFloat "1.5";
            JStr ("go: added github.com/a" +:+ CRLF +:+ "go: added github.com/b")]).
Proof. vm_compute. reflexivity. Qed.

Example loads_ex2 : Json.loads "{ }  " = Ok (JObj []).
Proof. vm_compute. reflexivity. Qed.

Example loads_ex3 : Json.loads "[1, -20, 0.5e+3, true, null, [], [[]]] " =
  Ok (JArr [JInt 1; JInt (-20); JFloat "0.5e+3"; JBool true; JNull; JArr []; JArr [JArr []]]).
Proof. vm_compute. reflexivity. Qed.

Example loads_ex4 : Json.loads "[1,]" = Raise JSONDecodeError.
Proof. vm_compute. reflexivity. Qed.

Example loads_ex5 : Json.loads "01" = Raise JSONDecodeError.
Proof. vm_compute. reflexivity. Qed.

Example dumps_ex1 :
  Json.dumps (JArr [JStr "o"; JInt 3; JStr ("a" +:+ CRLF +:+ "b\" +:+ String "027" "[0m")]) =
  "[" +:+ dq +:+ "o" +:+ dq +:+ ", 3, " +:+ dq +:+ "a\r\nb\\\u001b[0m" +:+ dq +:+ "]".
Proof. vm_compute. reflexivity. Qed.

(** ** Text: prefixes, searches and replacements *)

Section Text.

Implicit Types s t u v old new sub p : string.

Lemma sapp_nil_r s : s +:+ EmptyString = s.
Proof. induction s as [|c s IH]; simpl; [done | by rewrite IH]. Qed.

Lemma sapp_assoc s t u : (s +:+ t) +:+ u = s +:+ (t +:+ u).
Proof. induction s as [|c s IH]; simpl; [done | by rewrite IH]. Qed.

Lemma sapp_length s t : String.length (s +:+ t) = String.length s + String.length t.
Proof. induction s as [|c s IH]; simpl; [done | by rewrite IH]. Qed.

Lemma starts_app p s : Py.starts p (p +:+ s) = true.
Proof.
  induction p as [|a p IH]; simpl; [done |].
  by rewrite Ascii.eqb_refl, IH.
Qed.

Lemma starts_split p s : Py.starts p s = true -> exists t, s = p +:+ t.
Proof.
  revert s. induction p as [|a p IH]; intros s H; simpl in *.
  - by exists s.
  - destruct s as [|b s]; [done |].
    apply andb_true_iff in H as [Hab Hps].
    apply Ascii.eqb_eq in Hab as ->.
    destruct (IH _ Hps) as [t ->]. by exists t.
Qed.

Lemma starts_iff p s : Py.starts p s = true <-> exists t, s = p +:+ t.
Proof.
  split; [apply starts_split |]. intros [t ->]. apply starts_app.
Qed.

Lemma starts_trans p q s :
  Py.starts p q = true -> Py.starts q s = true -> Py.starts p s = true.
Proof.
  intros [t ->]%starts_split [u ->]%starts_split.
  rewrite sapp_assoc. apply starts_app.
Qed.

Lemma contains_cons sub c s :
  Py.contains sub (String c s) = Py.starts sub (String c s) || Py.contains sub s.
Proof. done. Qed.

Lemma contains_starts sub s : Py.starts sub s = true -> Py.contains sub s = true.
Proof. intros H. destruct s; simpl in *; by rewrite H. Qed.

Lemma contains_app_r sub u s : Py.contains sub s = true -> Py.contains sub (u +:+ s) = true.
Proof.
  intros H. induction u as [|c u IH]; [done |].
  change (String c u +:+ s) with (String c (u +:+ s)).
  rewrite contains_cons, IH. by rewrite orb_true_r.
Qed.

(** [sub in s] says that [s] is [u + sub + v] for some [u] and [v]. *)
Lemma contains_iff sub s :
  Py.contains sub s = true <-> exists u v, s = u +:+ sub +:+ v.
Proof.
  split.
  - induction s as [|c s IH]; intros H.
    + simpl in H. rewrite orb_false_r in H.
      apply starts_split in H as [t ->]. by exists EmptyString, t.
    + rewrite contains_cons in H. apply orb_true_iff in H as [H|H].
      * apply starts_split in H as [t ->]. by exists EmptyString, t.
      * destruct (IH H) as (u & v & ->). by exists (String c u), v.
  - intros (u & v & ->). apply contains_app_r, contains_starts, starts_app.
Qed.

Lemma contains_false_cons sub c s :
  Py.contains sub (String c s) = false ->
  Py.starts sub (String c s) = false /\ Py.contains sub s = false.
Proof. rewrite contains_cons. apply orb_false_iff. Qed.

(** A text that contains [sub] contains every part of [sub]. *)
Lemma contains_part sub sub' s :
  Py.contains sub' sub = true -> Py.contains sub s = true ->
  Py.contains sub' s = true.
Proof.
  intros (a & b & ->)%contains_iff (u & v & ->)%contains_iff.
  apply contains_iff. exists (u +:+ a), (b +:+ v).
  by rewrite !sapp_assoc.
Qed.

(** *** The equations of [replace] *)

Lemma replace_go_skip old new u s :
  Py.replace_go old new (String.length u) (u +:+ s) = Py.replace_go old new 0 s.
Proof. induction u as [|c u IH]; simpl; [done | apply IH]. Qed.

Lemma replace_nil a old new :
  Py.replace (String a old) new EmptyString = EmptyString.
Proof. done. Qed.

Lemma replace_match a old new s :
  Py.replace (String a old) new (String a old +:+ s) =
  new +:+ Py.replace (String a old) new s.
Proof.
  unfold Py.replace.
  change (String a old +:+ s) with (String a (old +:+ s)).
  cbn [Py.replace_go].
  change (String a (old +:+ s)) with (String a old +:+ s).
  rewrite starts_app. f_equal.
  replace (String.length (String a old) - 1) with (String.length old)
    by (simpl; lia).
  apply replace_go_skip.
Qed.

Lemma replace_other a old new c s :
  Py.starts (String a old) (String c s) = false ->
  Py.replace (String a old) new (String c s) =
  String c (Py.replace (String a old) new s).
Proof. unfold Py.replace. cbn [Py.replace_go]. by intros ->. Qed.

(** Induction along the way [replace] reads a text: it is empty, or it
    starts with a match, or its first character is copied. *)
Lemma replace_ind a old (P : string -> Prop) :
  P EmptyString ->
  (forall s, P s -> P (String a old +:+ s)) ->
  (forall c s, Py.starts (String a old) (String c s) = false -> P s -> P (String c s)) ->
  forall s, P s.
Proof.
  intros Hnil Hmatch Hother s.
  remember (String.length s) as n eqn:Hn.
  revert s Hn. induction (lt_wf n) as [n _ IH]. intros s ->.
  destruct s as [|c s]; [done |].
  destruct (Py.starts (String a old) (String c s)) eqn:Hst.
  - apply starts_split in Hst as [t Ht]. rewrite Ht.
    apply Hmatch, (IH (String.length t)); [| done].
    rewrite Ht, sapp_length. simpl. lia.
  - apply Hother; [done |]. apply (IH (String.length s)); [simpl; lia | done].
Qed.

(** A text without [old] is left as it is. *)
Lemma replace_absent a old new s :
  Py.contains (String a old) s = false -> Py.replace (String a old) new s = s.
Proof.
  induction s as [|c s IH]; intros H; [done |].
  apply contains_false_cons in H as [Hst Hc].
  rewrite replace_other by done. by rewrite IH.
Qed.

(** [replace] goes through a concatenation when no match of [old]
    starts in the left part and ends in the right part. *)
Lemma replace_app a old new t :
  (forall c u, Py.starts (String a old) (String c u) = false ->
               Py.starts (String a old) (String c u +:+ t) = false) ->
  forall s, Py.replace (String a old) new (s +:+ t) =
            Py.replace (String a old) new s +:+ Py.replace (String a old) new t.
Proof.
  intros Hbar s. induction s as [| s IH | c s Hst IH] using (replace_ind a old).
  - done.
  - rewrite sapp_assoc, !replace_match, IH. by rewrite sapp_assoc.
  - rewrite (replace_other _ _ _ c s) by done.
    change (String c s +:+ t) with (String c (s +:+ t)).
    rewrite replace_other; [by rewrite IH |]. by apply Hbar.
Qed.

(** *** What a replacement cannot create *)

Lemma diverge_starts w n x : diverge w n = true -> Py.starts w (n +:+ x) = false.
Proof.
  revert n. induction w as [|a w IH]; intros [|b n] H; simpl in *; try done.
  destruct (Ascii.eqb a b); [| done]. by rewrite IH.
Qed.

Lemma every_suffix_cons P c s :
  every_suffix P (String c s) = P (String c s) && every_suffix P s.
Proof. done. Qed.

(** When every suffix of [w] diverges from [new], a replacement that
    shows [w] at its head has read [w] at the head of the text. *)
Lemma starts_replace_inv a old new w :
  every_suffix (fun w' => diverge w' new) w = true ->
  forall s, Py.starts w (Py.replace (String a old) new s) = true ->
            Py.starts w s = true.
Proof.
  induction w as [|b w IH]; intros Hw s H; [done |].
  rewrite every_suffix_cons in Hw. apply andb_true_iff in Hw as [Hdiv Hw].
  destruct s as [|c s]; [done |].
  destruct (Py.starts (String a old) (String c s)) eqn:Hst.
  - apply starts_split in Hst as [t Ht]. rewrite Ht, replace_match in H.
    by rewrite (diverge_starts _ _ _ Hdiv) in H.
  - rewrite replace_other in H by done. simpl in H |- *.
    apply andb_true_iff in H as [-> H]. simpl. by apply IH.
Qed.

(** [q] does not show up in or across an inserted [new]. *)
Lemma contains_inert q new x :
  every_suffix (fun n' => diverge q n') new = true ->
  Py.contains q (new +:+ x) = Py.contains q x.
Proof.
  induction new as [|b new IH]; intros H; [done |].
  rewrite every_suffix_cons in H. apply andb_true_iff in H as [Hdiv H].
  change (String b new +:+ x) with (String b (new +:+ x)).
  rewrite contains_cons.
  change (String b (new +:+ x)) with (String b new +:+ x).
  rewrite (diverge_starts _ _ _ Hdiv). simpl. by apply IH.
Qed.

(** A replacement does not create an occurrence of [q] when [q]
    diverges from every suffix of [new] and every proper suffix of [q]
    diverges from [new]. *)
Lemma replace_keeps_absent a old new b q :
  every_suffix (fun n' => diverge (String b q) n') new = true ->
  every_suffix (fun w' => diverge w' new) q = true ->
  forall s, Py.contains (String b q) s = false ->
            Py.contains (String b q) (Py.replace (String a old) new s) = false.
Proof.
  intros Hnew Hq s.
  induction s as [| s IH | c s Hst IH] using (replace_ind a old); intros H.
  - done.
  - rewrite replace_match, contains_inert by done. apply IH.
    destruct (Py.contains (String b q) s) eqn:Hc; [| done].
    by rewrite (contains_app_r _ _ _ Hc) in H.
  - apply contains_false_cons in H as [Hh Ht].
    rewrite replace_other, contains_cons, (IH Ht), orb_false_r by done.
    destruct (Py.starts (String b q) (String c (Py.replace (String a old) new s)))
      eqn:Hs; [| done].
    simpl in Hs, Hh. apply andb_true_iff in Hs as [Hbc Hs].
    rewrite Hbc in Hh. simpl in Hh.
    by rewrite (starts_replace_inv _ _ _ _ Hq _ Hs) in Hh.
Qed.

(** Under the same conditions on [old] itself, no occurrence of [old]
    is left after its replacement. *)
Lemma replace_clears a old new :
  every_suffix (fun n' => diverge (String a old) n') new = true ->
  every_suffix (fun w' => diverge w' new) old = true ->
  forall s, Py.contains (String a old) (Py.replace (String a old) new s) = false.
Proof.
  intros Hnew Hold s.
  induction s as [| s IH | c s Hst IH] using (replace_ind a old).
  - done.
  - by rewrite replace_match, contains_inert.
  - rewrite replace_other, contains_cons, IH, orb_false_r by done.
    destruct (Py.starts (String a old) (String c (Py.replace (String a old) new s)))
      eqn:Hs; [| done].
    simpl in Hs, Hst. apply andb_true_iff in Hs as [Hbc Hs].
    rewrite Hbc in Hst. simpl in Hst.
    by rewrite (starts_replace_inv _ _ _ _ Hold _ Hs) in Hst.
Qed.

(** *** Replacing on both sides of a barrier *)

Lemma starts_app_inv p t u :
  every_suffix (fun w => negb (Py.starts w t)) p = true ->
  Py.starts p (u +:+ t) = true -> Py.starts p u = true.
Proof.
  revert p. induction u as [|d u IH]; intros [|b p] Hp H; try done.
  - change (EmptyString +:+ t) with t in H. rewrite every_suffix_cons in Hp.
    apply andb_true_iff in Hp as [Hp _]. by rewrite H in Hp.
  - rewrite every_suffix_cons in Hp. apply andb_true_iff in Hp as [_ Hp].
    change (String d u +:+ t) with (String d (u +:+ t)) in H.
    simpl in H |- *. apply andb_true_iff in H as [-> H]. simpl. by apply IH.
Qed.

(** When no proper suffix of [old] starts [t], no match of [old] runs
    from [s] into [t], and the replacement treats them apart. *)
Lemma replace_app_barrier a old new t s :
  every_suffix (fun w => negb (Py.starts w t)) old = true ->
  Py.replace (String a old) new (s +:+ t) =
  Py.replace (String a old) new s +:+ Py.replace (String a old) new t.
Proof.
  intros Hold. apply replace_app. intros c u Hst.
  destruct (Py.starts (String a old) (String c u +:+ t)) eqn:H; [| done].
  change (String c u +:+ t) with (String c (u +:+ t)) in H.
  simpl in H, Hst. apply andb_true_iff in H as [Hac H].
  rewrite Hac in Hst. simpl in Hst.
  by rewrite (starts_app_inv _ _ _ Hold H) in Hst.
Qed.

(** *** The equations of [split] and its inverse *)

Lemma split_go_skip sep u s :
  Py.split_go sep (String.length u) (u +:+ s) = Py.split_go sep 0 s.
Proof. induction u as [|c u IH]; simpl; [done | apply IH]. Qed.

Lemma split_match a sep s :
  Py.split (String a sep) (String a sep +:+ s) =
  EmptyString :: Py.split (String a sep) s.
Proof.
  unfold Py.split.
  change (String a sep +:+ s) with (String a (sep +:+ s)).
  cbn [Py.split_go].
  change (String a (sep +:+ s)) with (String a sep +:+ s).
  rewrite starts_app. f_equal.
  replace (String.length (String a sep) - 1) with (String.length sep)
    by (simpl; lia).
  apply split_go_skip.
Qed.

Lemma split_nonempty sep s : Py.split sep s <> [].
Proof.
  unfold Py.split. generalize 0.
  induction s as [|c s IH]; intros k; [done |]. cbn [Py.split_go].
  destruct k; [| apply IH].
  destruct (Py.starts sep (String c s)); [done |].
  by destruct (Py.split_go sep 0 s).
Qed.

Lemma split_other sep c s :
  Py.starts sep (String c s) = false ->
  exists p ps, Py.split sep s = p :: ps /\
               Py.split sep (String c s) = String c p :: ps.
Proof.
  intros H. unfold Py.split. cbn [Py.split_go]. rewrite H.
  pose proof (split_nonempty sep s) as Hne. unfold Py.split in Hne.
  destruct (Py.split_go sep 0 s) as [|p ps]; [done |]. eauto.
Qed.

Lemma no_straddle a old t c u :
  every_suffix (fun w => negb (Py.starts w t)) old = true ->
  Py.starts (String a old) (String c u) = false ->
  Py.starts (String a old) (String c u +:+ t) = false.
Proof.
  intros Hold Hst.
  destruct (Py.starts (String a old) (String c u +:+ t)) eqn:H; [| done].
  change (String c u +:+ t) with (String c (u +:+ t)) in H.
  simpl in H, Hst. apply andb_true_iff in H as [Hac H].
  rewrite Hac in Hst. simpl in Hst.
  by rewrite (starts_app_inv _ _ _ Hold H) in Hst.
Qed.

Lemma starts_app_l p s t : Py.starts p s = true -> Py.starts p (s +:+ t) = true.
Proof.
  intros [u ->]%starts_split. rewrite sapp_assoc. apply starts_app.
Qed.

(** The first piece of a split is at the head of the text. *)
Lemma split_head sep s p ps :
  Py.split sep s = p :: ps -> exists t, s = p +:+ t.
Proof.
  destruct sep as [|a sep].
  { unfold Py.split. revert p ps. induction s as [|c s IH]; intros p ps H.
    - injection H as <- <-. by exists EmptyString.
    - cbn in H. injection H as <- <-. by exists (String c s). }
  revert p ps. induction s as [|c s IH]; intros p ps H.
  - injection H as <- <-. by exists EmptyString.
  - destruct (Py.starts (String a sep) (String c s)) eqn:Hst.
    + apply starts_split in Hst as [t Ht]. rewrite Ht, split_match in H.
      injection H as <- <-. by exists (String c s).
    + destruct (split_other _ _ _ Hst) as (p' & ps' & Hs & Hcs).
      rewrite Hcs in H. injection H as <- <-.
      destruct (IH _ _ Hs) as [t ->]. by exists t.
Qed.

(** No piece of a split holds the separator. *)
Lemma split_pieces_clean a sep s :
  Forall (fun e => Py.contains (String a sep) e = false)
    (Py.split (String a sep) s).
Proof.
  induction s as [| s IH | c s Hst IH] using (replace_ind a sep).
  - by constructor.
  - rewrite split_match. by constructor.
  - destruct (split_other _ _ _ Hst) as (p & ps & Hs & ->).
    rewrite Hs in IH. inversion IH as [|? ? Hp Hps]; subst.
    constructor; [| done].
    rewrite contains_cons, Hp, orb_false_r.
    destruct (split_head _ _ _ _ Hs) as [t ->].
    destruct (Py.starts (String a sep) (String c p)) eqn:H; [| done].
    change (String c (p +:+ t)) with (String c p +:+ t) in Hst.
    by rewrite (starts_app_l _ (String c p) t H) in Hst.
Qed.

Lemma split_absent a sep s :
  Py.contains (String a sep) s = false -> Py.split (String a sep) s = [s].
Proof.
  induction s as [|c s IH]; intros H; [done |].
  apply contains_false_cons in H as [Hst Hc].
  destruct (split_other _ _ _ Hst) as (p & ps & Hs & ->).
  rewrite (IH Hc) in Hs. by injection Hs as <- <-.
Qed.

(** A piece, the separator and a text split into the piece and the
    pieces of the text, when no match can start in the piece and end in
    the separator. *)
Lemma split_app_sep a sep x t :
  every_suffix (fun w => negb (Py.starts w (String a sep +:+ t))) sep = true ->
  Py.contains (String a sep) x = false ->
  Py.split (String a sep) (x +:+ String a sep +:+ t) =
  x :: Py.split (String a sep) t.
Proof.
  intros Hbar. induction x as [|c x IH]; intros H.
  - apply split_match.
  - apply contains_false_cons in H as [Hst Hc].
    pose proof (no_straddle _ _ _ _ _ Hbar Hst) as Hns.
    change (String c x +:+ String a sep +:+ t)
      with (String c (x +:+ String a sep +:+ t)) in Hns |- *.
    destruct (split_other _ _ _ Hns) as (p & ps & Hs & ->).
    rewrite (IH Hc) in Hs. by injection Hs as <- <-.
Qed.

(** The first piece of a split is the whole text, or what is before
    the first separator. *)
Lemma split_first a sep s p ps :
  Py.split (String a sep) s = p :: ps ->
  (ps = [] /\ s = p) \/
  (exists rest, s = p +:+ String a sep +:+ rest /\
                Py.split (String a sep) rest = ps).
Proof.
  revert p ps.
  induction s as [| s IH | c s Hst IH] using (replace_ind a sep); intros p ps H.
  - injection H as <- <-. by left.
  - rewrite split_match in H. injection H as <- <-. right. by exists s.
  - destruct (split_other _ _ _ Hst) as (q & qs & Hq & Hcs).
    rewrite Hcs in H. injection H as <- <-.
    destruct (IH _ _ Hq) as [[-> ->] | (rest & -> & Hrest)]; [by left |].
    right. by exists rest.
Qed.

End Text.

(** ** The two recolouring loops *)

Section Recolor.

Implicit Types lines seen rest : list string.

Lemma getitem_middle {A} (pre : list A) (x : A) (post : list A) :
  Py.getitem (pre ++ x :: post) (length pre) = Ok x.
Proof. unfold Py.getitem. by rewrite list_lookup_middle. Qed.

Lemma getitem_after {A} (pre : list A) (x : A) (post : list A) :
  Py.getitem (pre ++ x :: post) (length pre + 1) =
  match post with y :: _ => Ok y | [] => Raise IndexError end.
Proof.
  unfold Py.getitem. rewrite lookup_app_r by lia.
  replace (length pre + 1 - length pre) with 1 by lia.
  by destruct post.
Qed.

Lemma setitem_middle {A} (pre : list A) (x y : A) (post : list A) :
  Py.setitem (pre ++ x :: post) (length pre) y = Ok (pre ++ y :: post).
Proof.
  unfold Py.setitem. rewrite decide_True.
  - f_equal. rewrite insert_app_r_alt by lia.
    by rewrite Nat.sub_diag.
  - rewrite length_app. simpl. lia.
Qed.

Lemma has_next_middle {A} (pre : list A) (x : A) (post : list A) :
  (length pre <? length (pre ++ x :: post) - 1) =
  match post with [] => false | _ :: _ => true end.
Proof.
  rewrite length_app. simpl.
  destruct post; simpl.
  - apply Nat.ltb_ge. lia.
  - apply Nat.ltb_lt. lia.
Qed.

Ltac run_items :=
  cbn [mbind result_bind];
  repeat (first [ rewrite getitem_middle
                | rewrite setitem_middle
                | rewrite getitem_after ];
          cbn [mbind result_bind]).

(** One turn of the first loop rewrites the line it is at and nothing
    else, after a look at the line that follows. *)
Lemma annotate_body_middle seen li rest :
  annotate_body (length seen) (seen ++ li :: rest) =
  Ok (seen ++ annotate_newlines (rewrite_prompt li (head rest)) :: rest).
Proof.
  unfold annotate_body, rewrite_prompt, prompt_rewriter, annotate_newlines.
  run_items.
  destruct (Py.contains prompt_end li); run_items; [| done].
  rewrite has_next_middle.
  destruct rest as [|nx rest]; run_items; [done |].
  cbn [head].
  destruct (Py.contains bare_newline nx); run_items;
    destruct (Py.contains hash_payload nx); by run_items.
Qed.

Lemma annotate_loop seen rest :
  for_loop (seq (length seen) (length rest)) annotate_body (seen ++ rest) =
  Ok (seen ++ annotated rest).
Proof.
  revert seen. induction rest as [|li rest IH]; intros seen; [done |].
  cbn [length seq for_loop annotated].
  rewrite annotate_body_middle. cbn [mbind result_bind].
  specialize (IH (seen ++ [annotate_newlines (rewrite_prompt li (head rest))])).
  rewrite length_app, <- !app_assoc in IH. simpl in IH.
  by rewrite Nat.add_1_r in IH.
Qed.

(** The first loop never raises, and computes [annotated]. *)
Lemma annotate_closed lines : annotate lines = Ok (annotated lines).
Proof. apply (annotate_loop [] lines). Qed.

Lemma colorize_body_middle seen li rest :
  colorize_body (length seen) (seen ++ li :: rest) =
  Ok (seen ++ colorize_line li :: rest).
Proof.
  unfold colorize_body. by run_items.
Qed.

Lemma colorize_loop seen rest :
  for_loop (seq (length seen) (length rest)) colorize_body (seen ++ rest) =
  Ok (seen ++ (colorize_line <$> rest)).
Proof.
  revert seen. induction rest as [|li rest IH]; intros seen; [done |].
  cbn [length seq for_loop fmap list_fmap].
  rewrite colorize_body_middle. cbn [mbind result_bind].
  specialize (IH (seen ++ [colorize_line li])).
  rewrite length_app, <- !app_assoc in IH. simpl in IH.
  by rewrite Nat.add_1_r in IH.
Qed.

(** The second loop never raises, and maps [colorize_line]. *)
Lemma colorize_closed lines : colorize lines = Ok (colorize_line <$> lines).
Proof. apply (colorize_loop [] lines). Qed.

Lemma annotated_length lines : length (annotated lines) = length lines.
Proof. induction lines; simpl; [done | by f_equal]. Qed.

Lemma annotated_lookup lines i li :
  lines !! i = Some li ->
  annotated lines !! i =
  Some (annotate_newlines (rewrite_prompt li (lines !! S i))).
Proof.
  revert i. induction lines as [|x lines IH]; intros i H; [done |].
  destruct i as [|i]; simpl in *.
  - injection H as ->. by destruct lines.
  - by apply IH.
Qed.

Lemma recolored_length lines : length (recolored lines) = length lines.
Proof. unfold recolored. by rewrite length_fmap, annotated_length. Qed.

Lemma recolored_lookup lines i li :
  lines !! i = Some li ->
  recolored lines !! i =
  Some (colorize_line (annotate_newlines (rewrite_prompt li (lines !! S i)))).
Proof.
  intros H. unfold recolored.
  by rewrite list_lookup_fmap, (annotated_lookup _ _ _ H).
Qed.

End Recolor.

(** ** The patterns and the escape sequences of the script *)

Section Patterns.

Implicit Types s t u v : string.

Lemma followed_cons q f c s :
  followed q f (String c s) =
  (if Py.starts q (String c s) then Py.starts (q +:+ f) (String c s) else true) &&
  followed q f s.
Proof. done. Qed.

Lemma followed_inert q f new x :
  every_suffix (fun n' => diverge q n') new = true ->
  followed q f (new +:+ x) = followed q f x.
Proof.
  induction new as [|b new IH]; intros H; [done |].
  rewrite every_suffix_cons in H. apply andb_true_iff in H as [Hdiv H].
  change (String b new +:+ x) with (String b (new +:+ x)).
  rewrite followed_cons.
  change (String b (new +:+ x)) with (String b new +:+ x).
  rewrite (diverge_starts _ _ _ Hdiv). simpl. by apply IH.
Qed.

(** After the blanket recolouring no prompt marker is left. *)
Lemma colorize_line_clears s : Py.contains prompt (colorize_line s) = false.
Proof. by apply replace_clears. Qed.

(** Nor after the dim rewrite of the first loop. *)
Lemma dim_clears s : Py.contains prompt (Py.replace prompt dim s) = false.
Proof. by apply replace_clears. Qed.

(** Neither escape sequence brings an escaped newline with it. *)
Lemma dim_keeps_no_newline s :
  Py.contains esc_newline s = false ->
  Py.contains esc_newline (Py.replace prompt dim s) = false.
Proof. by apply replace_keeps_absent. Qed.

Lemma colorize_keeps_no_newline s :
  Py.contains esc_newline s = false ->
  Py.contains esc_newline (colorize_line s) = false.
Proof. by apply replace_keeps_absent. Qed.

(** The reset does not bring a prompt marker with it. *)
Lemma annotate_keeps_no_prompt s :
  Py.contains prompt s = false ->
  Py.contains prompt (annotate_newlines s) = false.
Proof. by apply replace_keeps_absent. Qed.

(** After the annotation every escaped newline is followed by a reset. *)
Lemma annotate_followed s : followed esc_newline reset (annotate_newlines s) = true.
Proof.
  unfold annotate_newlines, esc_newline.
  induction s as [| s IH | c s Hst IH] using (replace_ind "\" "r\n").
  - done.
  - rewrite replace_match.
    generalize dependent (Py.replace "\r\n" ("\r\n" +:+ reset) s).
    intros x Hx. simpl. by rewrite Hx.
  - rewrite replace_other, followed_cons, IH, andb_true_r by done.
    destruct (Py.starts "\r\n" (String c (Py.replace "\r\n" ("\r\n" +:+ reset) s)))
      eqn:Hs; [| done].
    simpl in Hs, Hst. apply andb_true_iff in Hs as [Hc Hs].
    rewrite Hc in Hst. simpl in Hst.
    apply (starts_replace_inv "\" "r\n" ("\r\n" +:+ reset) "r\n") in Hs; [| done].
    simpl in Hs. by rewrite Hs in Hst.
Qed.

(** The blanket recolouring leaves every reset where it is. *)
Lemma colorize_followed s :
  followed esc_newline reset s = true ->
  followed esc_newline reset (colorize_line s) = true.
Proof.
  unfold colorize_line, prompt, esc_newline.
  induction s as [| s IH | c s Hst IH] using (replace_ind "$" " "); intros H.
  - done.
  - rewrite followed_inert in H by done.
    rewrite replace_match, followed_inert by done. by apply IH.
  - rewrite followed_cons in H. apply andb_true_iff in H as [Hh Ht].
    rewrite replace_other, followed_cons, (IH Ht), andb_true_r by done.
    destruct (Py.starts "\r\n" (String c (Py.replace "$ " blue_prompt s)))
      eqn:Hs; [| done].
    assert (Py.starts "\r\n" (String c s) = true) as Hcs.
    { simpl in Hs |- *. apply andb_true_iff in Hs as [-> Hs]. simpl.
      by apply (starts_replace_inv "$" " " blue_prompt "r\n") in Hs. }
    rewrite Hcs in Hh. apply starts_split in Hh as [t Ht'].
    injection Ht' as -> ->. done.
Qed.

(** An escaped newline splits the work of each replacement: what is
    before it and what is after it are rewritten apart, and the newline
    gets its reset. *)
Lemma prompt_replace_split new u v :
  Py.replace prompt new (u +:+ esc_newline +:+ v) =
  Py.replace prompt new u +:+ esc_newline +:+ Py.replace prompt new v.
Proof.
  unfold prompt. by rewrite replace_app_barrier.
Qed.

Lemma annotate_newlines_split u v :
  annotate_newlines (u +:+ esc_newline +:+ v) =
  annotate_newlines u +:+ esc_newline +:+ reset +:+ annotate_newlines v.
Proof.
  unfold annotate_newlines, esc_newline.
  rewrite replace_app_barrier by done. by rewrite replace_match.
Qed.

Lemma colorize_line_split u v :
  colorize_line (u +:+ esc_newline +:+ v) =
  colorize_line u +:+ esc_newline +:+ colorize_line v.
Proof. apply prompt_replace_split. Qed.

Lemma prompt_rewriter_split li next u v :
  prompt_rewriter li next (u +:+ esc_newline +:+ v) =
  prompt_rewriter li next u +:+ esc_newline +:+ prompt_rewriter li next v.
Proof.
  unfold prompt_rewriter.
  destruct (Py.contains prompt_end li); [| done].
  destruct next as [nx|]; [| done].
  destruct (Py.contains bare_newline nx), (Py.contains hash_payload nx);
    cbn zeta; by rewrite ?prompt_replace_split.
Qed.

(** Removing the prompt markers leaves none, except where a dollar
    stood right before a marker. *)
Lemma removal_clears s :
  Py.contains "$$ " s = false ->
  Py.contains prompt (Py.replace prompt EmptyString s) = false.
Proof.
  unfold prompt.
  induction s as [| s IH | c s Hst IH] using (replace_ind "$" " "); intros H.
  - done.
  - rewrite replace_match. change (EmptyString +:+ ?x) with x. apply IH.
    destruct (Py.contains "$$ " s) eqn:Hc; [| done].
    by rewrite (contains_app_r _ _ _ Hc) in H.
  - apply contains_false_cons in H as [Hh Ht].
    rewrite replace_other, contains_cons, (IH Ht), orb_false_r by done.
    destruct (Py.starts "$ " (String c (Py.replace "$ " EmptyString s)))
      eqn:Hs; [exfalso | done].
    remember (Py.replace "$ " EmptyString s) as x eqn:Hx.
    simpl in Hs, Hst, Hh. apply andb_true_iff in Hs as [Hc Hs].
    rewrite Hc in Hst, Hh. simpl in Hst, Hh.
    destruct s as [|d s]; [by subst x |].
    destruct (Py.starts "$ " (String d s)) eqn:Hd.
    + simpl in Hd, Hh. destruct (Ascii.eqb "$" d); [| done].
      simpl in Hd, Hh. by rewrite Hd in Hh.
    + rewrite replace_other in Hx by done. subst x. simpl in Hs.
      by rewrite Hs in Hst.
Qed.

(** A prompt marker splits the work of the blanket recolouring, and is
    recoloured. *)
Lemma colorize_line_hit u v :
  colorize_line (u +:+ prompt +:+ v) =
  colorize_line u +:+ blue_prompt +:+ colorize_line v.
Proof.
  unfold colorize_line, prompt.
  rewrite replace_app_barrier by done. by rewrite replace_match.
Qed.

(** The annotation makes a text no shorter, and longer when there is
    an escaped newline in it. *)
Lemma annotate_newlines_length s :
  String.length s <= String.length (annotate_newlines s).
Proof.
  unfold annotate_newlines, esc_newline.
  induction s as [| s IH | c s Hst IH] using (replace_ind "\" "r\n").
  - done.
  - rewrite replace_match, !sapp_length.
    set (x := Py.replace _ _ s) in *. simpl. lia.
  - rewrite replace_other by done.
    set (x := Py.replace _ _ s) in *. simpl. lia.
Qed.

Lemma annotate_newlines_grows s :
  Py.contains esc_newline s = true -> annotate_newlines s <> s.
Proof.
  intros (u & v & ->)%contains_iff Heq.
  apply (f_equal String.length) in Heq.
  rewrite annotate_newlines_split, !sapp_length in Heq.
  pose proof (annotate_newlines_length u).
  pose proof (annotate_newlines_length v).
  simpl in Heq. lia.
Qed.

Lemma prompt_rewriter_keeps_newline li next s :
  Py.contains esc_newline s = true ->
  Py.contains esc_newline (prompt_rewriter li next s) = true.
Proof.
  intros (u & v & ->)%contains_iff. rewrite prompt_rewriter_split.
  apply contains_iff. by eexists _, _.
Qed.

Lemma annotate_keeps_newline s :
  Py.contains esc_newline s = true ->
  Py.contains esc_newline (annotate_newlines s) = true.
Proof.
  intros (u & v & ->)%contains_iff. rewrite annotate_newlines_split.
  apply contains_iff. by eexists _, _.
Qed.

Lemma colorize_keeps_newline s :
  Py.contains esc_newline s = true ->
  Py.contains esc_newline (colorize_line s) = true.
Proof.
  intros (u & v & ->)%contains_iff. rewrite colorize_line_split.
  apply contains_iff. by eexists _, _.
Qed.

End Patterns.

(** ** The prompt recolourer and the newline annotator *)

Section Recolorer.

Implicit Types lines : list string.

Lemma recolor_closed lines : recolor lines = Ok (recolored lines).
Proof.
  unfold recolor. rewrite annotate_closed. cbn [mbind result_bind].
  apply colorize_closed.
Qed.

Lemma bare_newline_has_newline nx :
  Py.contains bare_newline nx = true -> Py.contains esc_newline nx = true.
Proof. by apply contains_part. Qed.

Lemma prompt_end_has_prompt li :
  Py.contains prompt_end li = true -> Py.contains prompt li = true.
Proof. by apply contains_part. Qed.

(** C5: a line that ends its payload with the prompt marker and has a
    successor loses the marker when the successor is a bare newline, and
    then has the marker replaced by the dim escape when the successor
    holds a hash payload, the second rewrite working on the result of
    the first; a line without successor gets neither rewrite.  The line
    the first loop leaves is the newline annotation of that text. *)
Theorem prompt_rewritten_by_successor lines i li :
  lines !! i = Some li ->
  Py.contains prompt_end li = true ->
  exists out,
    annotate lines = Ok out /\
    out !! i = Some (annotate_newlines
      match lines !! (i + 1) with
      | Some nx =>
          let li1 :=
            if Py.contains bare_newline nx
            then Py.replace prompt EmptyString li else li in
          if Py.contains hash_payload nx then Py.replace prompt dim li1 else li1
      | None => li
      end).
Proof.
  intros Hi Hend. exists (annotated lines). split; [apply annotate_closed |].
  rewrite (annotated_lookup _ _ _ Hi), Nat.add_1_r.
  unfold rewrite_prompt, prompt_rewriter. rewrite Hend.
  by destruct (lines !! S i).
Qed.

Lemma prompt_rewritten_by_successor_witness :
  exists out,
    annotate rec_prompt_newline = Ok out /\
    out !! 0 = Some ("[0.1, " +:+ dq +:+ "o" +:+ dq +:+ ", " +:+ dq +:+ dq +:+ "]" +:+ LF).
Proof.
  destruct (prompt_rewritten_by_successor rec_prompt_newline 0 (event "0.1" "$ ")
              eq_refl eq_refl) as (out & Hout & Hline).
  exists out. split; [exact Hout | exact Hline].
Defined.

(** C7: whatever the prompt checks did to a line, every escaped newline
    of the line the first loop leaves is followed by the reset, and
    every escaped newline of the raw text is one of them: the text
    before it and the text after it are rewritten apart, and the reset
    stands right after it. *)
Theorem newline_gets_reset lines i li :
  lines !! i = Some li ->
  exists out r,
    annotate lines = Ok out /\
    out !! i = Some r /\
    followed esc_newline reset r = true /\
    forall u v, li = u +:+ esc_newline +:+ v ->
      let rewritten x :=
        annotate_newlines (prompt_rewriter li (lines !! (i + 1)) x) in
      r = rewritten u +:+ esc_newline +:+ reset +:+ rewritten v.
Proof.
  intros Hi. eexists (annotated lines), _.
  split; [apply annotate_closed |].
  split; [apply (annotated_lookup _ _ _ Hi) |].
  split; [apply annotate_followed |].
  intros u v -> rewritten. subst rewritten. cbn beta.
  rewrite Nat.add_1_r. unfold rewrite_prompt.
  by rewrite prompt_rewriter_split, annotate_newlines_split.
Qed.

Lemma newline_gets_reset_witness :
  exists out,
    annotate rec_prompt_newline = Ok out /\
    out !! 1 = Some (event "0.2" "\r\n\u001b[0m").
Proof.
  destruct (newline_gets_reset rec_prompt_newline 1 (event "0.2" "\r\n") eq_refl)
    as (out & r & Hout & Hline & _ & Hocc).
  exists out. split; [exact Hout |].
  rewrite Hline. f_equal.
  exact (Hocc ("[0.2, " +:+ dq +:+ "o" +:+ dq +:+ ", " +:+ dq)
              (dq +:+ "]" +:+ LF) eq_refl).
Defined.

Lemma rewrite_prompt_untouched li next :
  Py.contains prompt_end li = false -> rewrite_prompt li next = li.
Proof. unfold rewrite_prompt, prompt_rewriter. by intros ->. Qed.

(** A line with no prompt marker and no escaped newline is left alone
    by both loops. *)
Lemma recolor_fixes_line li next :
  Py.contains prompt li = false ->
  Py.contains esc_newline li = false ->
  colorize_line (annotate_newlines (rewrite_prompt li next)) = li.
Proof.
  intros Hp Hn.
  rewrite rewrite_prompt_untouched.
  - unfold annotate_newlines, colorize_line, esc_newline, prompt in *.
    by rewrite (replace_absent _ _ _ _ Hn), (replace_absent _ _ _ _ Hp).
  - destruct (Py.contains prompt_end li) eqn:H; [| done].
    by rewrite (prompt_end_has_prompt _ H) in Hp.
Qed.

Lemma recolored_cons li rest :
  recolored (li :: rest) =
  colorize_line (annotate_newlines (rewrite_prompt li (head rest))) :: recolored rest.
Proof. done. Qed.

Lemma recolored_fixed lines :
  Forall (fun l => Py.contains prompt l = false /\
                   Py.contains esc_newline l = false) lines ->
  recolored lines = lines.
Proof.
  induction 1 as [|li rest [Hp Hn] _ IH]; [done |].
  by rewrite recolored_cons, IH, recolor_fixes_line.
Qed.

(** Without escaped newlines in the input, the recoloured lines have
    neither a prompt marker nor an escaped newline. *)
Lemma recolored_line_clean li next :
  Py.contains esc_newline li = false ->
  (forall nx, next = Some nx -> Py.contains esc_newline nx = false) ->
  Py.contains prompt (colorize_line (annotate_newlines (rewrite_prompt li next))) = false /\
  Py.contains esc_newline (colorize_line (annotate_newlines (rewrite_prompt li next))) = false.
Proof.
  intros Hn Hnext. split; [apply colorize_line_clears |].
  apply colorize_keeps_no_newline.
  assert (Py.contains esc_newline (rewrite_prompt li next) = false) as Hr.
  { unfold rewrite_prompt, prompt_rewriter.
    destruct (Py.contains prompt_end li); [| done].
    destruct next as [nx|]; [| done].
    destruct (Py.contains bare_newline nx) eqn:Hb.
    { specialize (Hnext nx eq_refl).
      by rewrite (bare_newline_has_newline _ Hb) in Hnext. }
    cbn zeta. destruct (Py.contains hash_payload nx); [| done].
    by apply dim_keeps_no_newline. }
  unfold annotate_newlines, esc_newline in *.
  by rewrite (replace_absent _ _ _ _ Hr).
Qed.

Lemma recolored_clean lines :
  Forall (fun l => Py.contains esc_newline l = false) lines ->
  Forall (fun l => Py.contains prompt l = false /\
                   Py.contains esc_newline l = false) (recolored lines).
Proof.
  induction 1 as [|li rest Hn Hrest IH]; [constructor |].
  rewrite recolored_cons. constructor; [| done].
  apply recolored_line_clean; [done |].
  intros nx Hnx. destruct rest as [|y rest]; [done |].
  injection Hnx as ->. by inversion Hrest.
Qed.

(** A line with an escaped newline is changed by each run. *)
Lemma recolored_twice_differs lines i li :
  lines !! i = Some li ->
  Py.contains esc_newline li = true ->
  recolored (recolored lines) !! i <> recolored lines !! i.
Proof.
  intros Hi Hn.
  pose proof (recolored_lookup _ _ _ Hi) as H1.
  set (r := colorize_line (annotate_newlines (rewrite_prompt li (lines !! S i)))) in *.
  assert (Py.contains esc_newline r = true) as Hr.
  { by apply colorize_keeps_newline, annotate_keeps_newline,
      prompt_rewriter_keeps_newline. }
  assert (Py.contains prompt r = false) as Hp by apply colorize_line_clears.
  rewrite (recolored_lookup _ _ _ H1), H1.
  rewrite rewrite_prompt_untouched.
  - intros [= Heq].
    assert (Py.contains prompt (annotate_newlines r) = false) as Hpa
      by by apply annotate_keeps_no_prompt.
    unfold colorize_line, prompt in Heq, Hpa.
    rewrite (replace_absent _ _ _ _ Hpa) in Heq.
    by apply (annotate_newlines_grows r).
  - destruct (Py.contains prompt_end r) eqn:H; [| done].
    by rewrite (prompt_end_has_prompt _ H) in Hp.
Qed.

(** C4, as the code has it: a second run of the two loops gives what
    the first run gave exactly when no line holds an escaped newline.
    (An escaped newline gets one more reset at each run, although the
    reset itself holds neither a prompt marker nor an escaped newline.) *)
Theorem recolor_twice lines :
  exists once twice,
    recolor lines = Ok once /\
    recolor once = Ok twice /\
    (twice = once <->
     Forall (fun l => Py.contains esc_newline l = false) lines).
Proof.
  exists (recolored lines), (recolored (recolored lines)).
  split; [apply recolor_closed |]. split; [apply recolor_closed |].
  split.
  - intros Heq. apply Forall_lookup. intros i li Hi.
    destruct (Py.contains esc_newline li) eqn:Hn; [| done].
    destruct (recolored_twice_differs _ _ _ Hi Hn). by rewrite Heq.
  - intros H. by apply recolored_fixed, recolored_clean.
Qed.

(** The claimed idempotence fails on a single bare newline, and the
    escape sequences hold neither pattern. *)
Lemma recolor_twice_counterexample :
  recolor [event "0.2" "\r\n"] = Ok [event "0.2" "\r\n\u001b[0m"] /\
  recolor [event "0.2" "\r\n\u001b[0m"] = Ok [event "0.2" "\r\n\u001b[0m\u001b[0m"] /\
  Py.contains prompt dim = false /\ Py.contains esc_newline dim = false /\
  Py.contains prompt reset = false /\ Py.contains esc_newline reset = false /\
  Py.contains prompt blue_prompt = false /\
  Py.contains esc_newline blue_prompt = false.
Proof. by vm_compute. Qed.

(** C6, as the code has it: the blanket recolouring runs on the lines
    the first loop has left, all of them; it replaces every prompt
    marker of every line and leaves none.  A line the first loop rewrote
    holds no marker any more, and the second loop leaves it alone, when
    the rewrite was the dim replacement, or was the removal on a line
    that does not hold two dollars and a space.  A line the first loop
    did not touch has its markers recoloured there. *)
Theorem blanket_recolor lines i li :
  lines !! i = Some li ->
  exists mid out a,
    annotate lines = Ok mid /\ colorize mid = Ok out /\
    recolor lines = Ok out /\
    mid !! i = Some a /\
    out !! i = Some (Py.replace prompt blue_prompt a) /\
    Py.contains prompt (Py.replace prompt blue_prompt a) = false /\
    (forall u v, a = u +:+ prompt +:+ v ->
       Py.replace prompt blue_prompt a =
       Py.replace prompt blue_prompt u +:+ blue_prompt +:+
       Py.replace prompt blue_prompt v) /\
    (forall nx,
       Py.contains prompt_end li = true ->
       lines !! (i + 1) = Some nx ->
       Py.contains hash_payload nx = true \/
       (Py.contains bare_newline nx = true /\ Py.contains "$$ " li = false) ->
       Py.contains prompt a = false /\ out !! i = Some a) /\
    (Py.contains prompt_end li = false ->
       a = annotate_newlines li /\
       out !! i = Some (Py.replace prompt blue_prompt (annotate_newlines li))).
Proof.
  intros Hi.
  exists (annotated lines), (recolored lines),
    (annotate_newlines (rewrite_prompt li (lines !! S i))).
  split; [apply annotate_closed |]. split; [apply colorize_closed |].
  split; [apply recolor_closed |].
  split; [by apply annotated_lookup |].
  split; [by apply recolored_lookup |].
  split; [apply colorize_line_clears |].
  split; [intros u v ->; apply colorize_line_hit |].
  split.
  - intros nx Hend Hnx Hcase. rewrite Nat.add_1_r in Hnx.
    assert (Py.contains prompt
              (annotate_newlines (rewrite_prompt li (lines !! S i))) = false)
      as Hclean.
    { apply annotate_keeps_no_prompt.
      unfold rewrite_prompt, prompt_rewriter. rewrite Hend, Hnx. cbn zeta.
      destruct Hcase as [-> | [-> Hdd]]; [apply dim_clears |].
      destruct (Py.contains hash_payload nx); [apply dim_clears |].
      by apply removal_clears. }
    split; [done |]. rewrite (recolored_lookup _ _ _ Hi). f_equal.
    unfold colorize_line, prompt in *. by apply replace_absent.
  - intros Hend. rewrite (rewrite_prompt_untouched _ _ Hend).
    split; [done |]. by rewrite (recolored_lookup _ _ _ Hi), rewrite_prompt_untouched.
Qed.

Lemma blanket_recolor_witness :
  exists out,
    recolor rec_prompt_comment = Ok out /\
    out !! 0 = Some (event "0.1" "\u001b[39;2m") /\
    out !! 1 = Some (event "0.2" "#").
Proof.
  destruct (blanket_recolor rec_prompt_comment 0 (event "0.1" "$ ") eq_refl)
    as (mid & out & a & Hmid & _ & Hout & Ha & _ & _ & _ & Hrew & _).
  destruct (Hrew (event "0.2" "#") eq_refl eq_refl (or_introl eq_refl))
    as [_ Hline].
  exists out. split; [exact Hout |].
  rewrite annotate_closed in Hmid. injection Hmid as <-.
  injection Ha as <-.
  split; [exact Hline |].
  rewrite recolor_closed in Hout. by injection Hout as <-.
Defined.

(** The claim fails where the removal joins a dollar and a space: the
    first line is rewritten by the first loop, still holds a prompt
    marker, and is recoloured by the second loop. *)
Lemma blanket_recolor_counterexample :
  Py.contains prompt_end (event "0.1" "$$  $ ") = true /\
  Py.contains bare_newline (event "0.2" "\r\n") = true /\
  annotate rec_double_dollar =
    Ok [event "0.1" "$ "; event "0.2" "\r\n\u001b[0m"] /\
  event "0.1" "$ " <> annotate_newlines (event "0.1" "$$  $ ") /\
  Py.contains prompt (event "0.1" "$ ") = true /\
  colorize [event "0.1" "$ "; event "0.2" "\r\n\u001b[0m"] =
    Ok [event "0.1" "\u001b[34m$\u001b[0m "; event "0.2" "\r\n\u001b[0m"].
Proof. by vm_compute. Qed.

End Recolorer.

(** ** The package-list collapser *)

Section Collapser.

Variable loads : string -> result value.
Variable dumps : value -> string.

Implicit Types lines pre rest out : list string.
Implicit Types st : scan_state.

Lemma for_loop_app {S} (xs ys : list nat) (body : nat -> S -> result S) (s : S) :
  for_loop (xs ++ ys) body s = (s' ← for_loop xs body s; for_loop ys body s').
Proof.
  revert s. induction xs as [|x xs IH]; intros s; [done |].
  cbn [app for_loop mbind result_bind]. destruct (body x s); [apply IH | done].
Qed.

Lemma scan_body_middle pre l rest st :
  scan_body loads (pre ++ l :: rest) (length pre) st =
  scan_from loads (length pre) [l] st.
Proof.
  unfold scan_body, scan_from, pkg_line. rewrite getitem_middle.
  cbn [mbind result_bind].
  destruct (Py.contains marker l); [| done].
  destruct (loads l) as [data|]; [| done]. cbn [mbind result_bind].
  destruct (subscript data 2) as [payload|]; [| done]. cbn [mbind result_bind].
  by destruct (split_method payload CRLF).
Qed.

Lemma scan_from_cons k l rest st :
  scan_from loads k (l :: rest) st =
  (st' ← scan_from loads k [l] st; scan_from loads (S k) rest st').
Proof.
  cbn [scan_from].
  destruct (if pkg_line l then _ else _) as [st'|]; done.
Qed.

Lemma scan_loop pre rest st :
  for_loop (seq (length pre) (length rest)) (scan_body loads (pre ++ rest)) st =
  scan_from loads (length pre) rest st.
Proof.
  revert pre st. induction rest as [|l rest IH]; intros pre st; [done |].
  rewrite scan_from_cons. cbn [length seq for_loop].
  rewrite scan_body_middle.
  destruct (scan_from loads (length pre) [l] st) as [st'|]; [| done].
  cbn [mbind result_bind].
  specialize (IH (pre ++ [l]) st').
  rewrite length_app, <- app_assoc in IH. simpl in IH.
  by rewrite Nat.add_1_r in IH.
Qed.

(** The third loop is the scan of all lines from the first. *)
Lemma scan_closed lines : scan loads lines = scan_from loads 0 lines scan_init.
Proof. apply (scan_loop [] lines). Qed.

Lemma filter_pkg_cons l rest :
  filter (fun l => pkg_line l = true) (l :: rest) =
  if pkg_line l then l :: filter (fun l => pkg_line l = true) rest
  else filter (fun l => pkg_line l = true) rest.
Proof.
  rewrite filter_cons. destruct (pkg_line l); by case_decide.
Qed.

(** The scan in closed form: it fails where the first package line that
    cannot be read fails, and otherwise gathers the entries of all
    package lines, the first decoded row and the indices. *)
Lemma scan_from_closed k rest st :
  scan_from loads k rest st =
  (ess ← mapM (entries_of loads) (filter (fun l => pkg_line l = true) rest);
   Ok {| packages := packages st ++ concat ess;
         package_row := match package_row st with
                        | Some row => Some row
                        | None => first_row loads rest
                        end;
         package_del := package_del st ++ indices_from k rest |}).
Proof.
  revert k st. induction rest as [|l rest IH]; intros k st.
  - cbn. rewrite !app_nil_r. by destruct st as [? [?|] ?].
  - cbn [scan_from indices_from]. unfold first_row.
    rewrite filter_pkg_cons.
    destruct (pkg_line l); cbn [mbind result_bind].
    + cbn [mapM]. unfold entries_of.
      destruct (loads l) as [data|e]; cbn [mbind result_bind]; [| done].
      destruct (subscript data 2) as [payload|e]; cbn [mbind result_bind];
        [| done].
      destruct (split_method payload CRLF) as [entries|e];
        cbn [mbind result_bind]; [| done].
      rewrite IH. cbn [packages package_row package_del].
      destruct (mapM _ _) as [ess|e]; cbn [mbind result_bind]; [| done].
      cbn [mret result_ret concat].
      rewrite <- !app_assoc. by destruct (package_row st).
    + rewrite IH. fold (first_row loads rest).
      by destruct (mapM _ _).
Qed.

Lemma indices_from_none k lines :
  Forall (fun l => pkg_line l = false) lines -> indices_from k lines = [].
Proof.
  intros H. revert k. induction H as [|l lines Hl _ IH]; intros k; [done |].
  cbn [indices_from]. rewrite Hl. apply IH.
Qed.

Lemma indices_from_app k pre rest :
  indices_from k (pre ++ rest) =
  indices_from k pre ++ indices_from (k + length pre) rest.
Proof.
  revert k. induction pre as [|l pre IH]; intros k.
  - by rewrite Nat.add_0_r.
  - cbn [app indices_from length]. rewrite IH, Nat.add_succ_r.
    by destruct (pkg_line l).
Qed.

Lemma filter_pkg_none lines :
  Forall (fun l => pkg_line l = false) lines ->
  filter (fun l => pkg_line l = true) lines = [].
Proof.
  induction 1 as [|l lines Hl _ IH]; [done |].
  by rewrite filter_pkg_cons, Hl.
Qed.

Lemma filter_not_pkg_cons l rest :
  filter (fun l => pkg_line l = false) (l :: rest) =
  if pkg_line l then filter (fun l => pkg_line l = false) rest
  else l :: filter (fun l => pkg_line l = false) rest.
Proof.
  rewrite filter_cons. destruct (pkg_line l); by case_decide.
Qed.

Lemma delitem_middle {A} (xs : list A) (x : A) (ys : list A) :
  Py.delitem (xs ++ x :: ys) (length xs) = Ok (xs ++ ys).
Proof.
  unfold Py.delitem. rewrite decide_True.
  - f_equal. induction xs as [|a xs IH]; [done |]. cbn. by f_equal.
  - rewrite length_app. simpl. lia.
Qed.

(** The last loop, after the lines before [rest]: the package lines of
    [rest] go, and the loop does not raise. *)
Lemma prune_loop pre rest :
  for_loop (rev (indices_from (length pre) rest))
    (fun i ls => Py.delitem ls i) (pre ++ rest) =
  Ok (pre ++ filter (fun l => pkg_line l = false) rest).
Proof.
  revert pre. induction rest as [|l rest IH]; intros pre; [done |].
  cbn [indices_from]. rewrite filter_not_pkg_cons.
  specialize (IH (pre ++ [l])).
  rewrite length_app, <- !app_assoc in IH. simpl in IH.
  rewrite Nat.add_1_r in IH.
  destruct (pkg_line l); [| done].
  cbn [rev]. rewrite for_loop_app, IH. cbn [mbind result_bind for_loop].
  by rewrite delitem_middle.
Qed.

(** A row that the scan could read is a list of three items or more, or
    a string of three characters or more; either is true in a test. *)
Lemma subscript_truthy row payload :
  subscript row 2 = Ok payload -> truthy row = true.
Proof.
  destruct row as [| | | |s|items|]; try done.
  - by destruct s.
  - by destruct items.
Qed.

Lemma bind_ok {A B} (m : result A) (k : A -> result B) (b : B) :
  m ≫= k = Ok b -> exists a, m = Ok a /\ k a = Ok b.
Proof. destruct m as [a|e]; [by exists a | done]. Qed.

Lemma mapM_cons_ok {A B} (f : A -> result B) (x : A) (xs : list A) (ys : list B) :
  mapM f (x :: xs) = Ok ys ->
  exists y ys', f x = Ok y /\ mapM f xs = Ok ys' /\ ys = y :: ys'.
Proof.
  cbn [mapM]. intros (y & Hy & H)%bind_ok. apply bind_ok in H as (ys' & Hys & H).
  injection H as <-. eauto.
Qed.

Lemma entries_of_ok l es :
  entries_of loads l = Ok es ->
  exists row payload,
    loads l = Ok row /\ subscript row 2 = Ok payload /\
    split_method payload CRLF = Ok es.
Proof.
  unfold entries_of. intros (row & Hrow & H)%bind_ok.
  apply bind_ok in H as (payload & Hsub & H). eauto.
Qed.

(** Without package lines the collapser changes nothing. *)
Lemma collapse_none lines :
  Forall (fun l => pkg_line l = false) lines ->
  collapse loads dumps lines = Ok lines.
Proof.
  intros H. unfold collapse.
  rewrite scan_closed, scan_from_closed, (filter_pkg_none _ H).
  cbn [mapM mret result_ret mbind result_bind scan_init packages package_row
       package_del concat app].
  unfold summarize, prune, first_row, Py.from1.
  rewrite (filter_pkg_none _ H). cbn [package_row package_del mbind result_bind].
  by rewrite (indices_from_none _ _ H).
Qed.

(** The collapser in closed form, on lines split at the first package
    line: the entries of all package lines are gathered, the row of the
    first one takes the ellipsized list as its third item and replaces
    the line, and the other package lines go. *)
Lemma collapse_closed pre l0 tail :
  Forall (fun l => pkg_line l = false) pre ->
  pkg_line l0 = true ->
  collapse loads dumps (pre ++ l0 :: tail) =
  (ess ← mapM (entries_of loads) (l0 :: filter (fun l => pkg_line l = true) tail);
   row ← loads l0;
   row' ← store row 2 (JStr (Py.join CRLF (ellipsize (concat ess))));
   Ok (pre ++ (dumps row' +:+ LF) :: filter (fun l => pkg_line l = false) tail)).
Proof.
  intros Hpre Hl0. unfold collapse.
  rewrite scan_closed, scan_from_closed.
  assert (filter (fun l => pkg_line l = true) (pre ++ l0 :: tail) =
          l0 :: filter (fun l => pkg_line l = true) tail) as Hf.
  { by rewrite filter_app, (filter_pkg_none _ Hpre), filter_pkg_cons, Hl0. }
  unfold first_row. rewrite Hf.
  destruct (mapM (entries_of loads) _) as [ess|e] eqn:Hess;
    cbn [mbind result_bind]; [| done].
  cbn [scan_init packages package_row package_del app].
  assert (exists row payload, loads l0 = Ok row /\ subscript row 2 = Ok payload)
    as (row & payload & Hrow & Hsub).
  { apply mapM_cons_ok in Hess as (es & ess' & Hes & _ & _).
    apply entries_of_ok in Hes as (row & payload & ? & ? & _). eauto. }
  rewrite Hrow. cbn [mbind result_bind].
  unfold summarize. cbn [package_row packages package_del].
  rewrite (subscript_truthy _ _ Hsub).
  destruct (store row 2 _) as [row'|e]; cbn [mbind result_bind]; [| done].
  rewrite indices_from_app, (indices_from_none _ _ Hpre). cbn [app indices_from].
  rewrite Hl0. cbn [Py.getitem lookup list_lookup mbind result_bind].
  rewrite Nat.add_0_l, setitem_middle. cbn [mbind result_bind].
  unfold prune, Py.from1. cbn [package_del drop].
  pose proof (prune_loop (pre ++ [dumps row' +:+ LF]) tail) as Hp.
  rewrite length_app, <- !app_assoc in Hp. simpl in Hp.
  by rewrite Nat.add_1_r in Hp.
Qed.

Lemma mapM_raise {A B} (f : A -> result B) (xs : list A) (x : A) (e : exn) :
  x ∈ xs -> f x = Raise e -> exists e', mapM f xs = Raise e'.
Proof.
  intros Hx Hfx. induction xs as [|y xs IH]; [by apply elem_of_nil in Hx |].
  cbn [mapM]. apply elem_of_cons in Hx as [<- | Hx].
  - rewrite Hfx. by exists e.
  - destruct (IH Hx) as [e' ->].
    destruct (f y) as [b|e1]; [by exists e' | by exists e1].
Qed.

(** Every sequence of lines is free of package lines or splits at its
    first package line. *)
Lemma first_pkg_line lines :
  Forall (fun l => pkg_line l = false) lines \/
  exists pre l0 tail,
    lines = pre ++ l0 :: tail /\
    Forall (fun l => pkg_line l = false) pre /\ pkg_line l0 = true.
Proof.
  induction lines as [|l lines IH]; [by left |].
  destruct (pkg_line l) eqn:Hl.
  - right. by exists [], l, lines.
  - destruct IH as [IH | (pre & l0 & tail & -> & Hpre & Hl0)].
    + left. by constructor.
    + right. exists (l :: pre), l0, tail. repeat split; [| done].
      by constructor.
Qed.

Lemma collapse_scan_raise lines e :
  scan loads lines = Raise e -> collapse loads dumps lines = Raise e.
Proof. unfold collapse. by intros ->. Qed.


Lemma store_ok row x row' :
  subscript row 2 = Ok x ->
  forall y, store row 2 y = Ok row' ->
  exists items, row = JArr items /\ 2 < length items /\ row' = JArr (<[2:=y]> items).
Proof.
  destruct row as [| | | |s|items|]; try done.
  intros Hsub y. cbn [store]. unfold Py.setitem.
  case_decide; [| done]. cbn [mbind result_bind]. intros [= <-]. eauto.
Qed.

(** The collapser, when it does not raise: either there is no package
    line and nothing changes, or the lines split at the first package
    line, which decodes to an array; the summary takes its place and the
    other package lines are gone. *)
Lemma collapse_ok lines out :
  collapse loads dumps lines = Ok out ->
  (Forall (fun l => pkg_line l = false) lines /\ out = lines) \/
  (exists pre l0 tail items ess,
     lines = pre ++ l0 :: tail /\
     Forall (fun l => pkg_line l = false) pre /\ pkg_line l0 = true /\
     loads l0 = Ok (JArr items) /\ 2 < length items /\
     mapM (entries_of loads) (filter (fun l => pkg_line l = true) lines) = Ok ess /\
     out = pre ++
           (dumps (JArr (<[2:=JStr (Py.join CRLF (ellipsize (concat ess)))]> items))
              +:+ LF)
           :: filter (fun l => pkg_line l = false) tail).
Proof.
  intros Hout.
  destruct (first_pkg_line lines) as [Hnone | (pre & l0 & tail & -> & Hpre & Hl0)].
  - left. split; [done |]. rewrite (collapse_none _ Hnone) in Hout. by injection Hout.
  - right. rewrite (collapse_closed _ _ _ Hpre Hl0) in Hout.
    apply bind_ok in Hout as (ess & Hess & Hout).
    apply bind_ok in Hout as (row & Hrow & Hout).
    apply bind_ok in Hout as (row' & Hstore & Hout).
    injection Hout as <-.
    pose proof Hess as Hess'.
    apply mapM_cons_ok in Hess' as (es & ess' & Hes & _ & _).
    apply entries_of_ok in Hes as (row1 & payload & Hrow1 & Hsub & _).
    rewrite Hrow in Hrow1. injection Hrow1 as <-.
    destruct (store_ok _ _ _ Hsub _ Hstore) as (items & -> & Hlen & ->).
    exists pre, l0, tail, items, ess. repeat split; try done.
    by rewrite filter_app, (filter_pkg_none _ Hpre), filter_pkg_cons, Hl0.
Qed.

Lemma drop_after_middle {A} (xs : list A) (x : A) (ys : list A) :
  drop (S (length xs)) (xs ++ x :: ys) = ys.
Proof.
  change (x :: ys) with ([x] ++ ys). rewrite app_assoc.
  apply drop_app_length'. rewrite length_app. simpl. lia.
Qed.

Lemma but_last2_lookup {A} (l : list A) (i : nat) (x : A) :
  l !! i = Some x ->
  (Py.but_last2 l !! i = Some x <-> i + 2 < length l).
Proof.
  intros Hi. unfold Py.but_last2. split.
  - intros H%lookup_lt_Some. rewrite length_take in H. lia.
  - intros H. rewrite lookup_take_lt by lia. done.
Qed.

(** C3, as the code has it: on a run that does not raise, the lines
    after the collapse hold at most one summary.  Without a package line
    they are the recoloured lines.  With package lines, the first one is
    replaced, at its index, by its decoded record with the merged and
    ellipsized payload, encoded again and followed by a newline; every
    later package line is deleted and the other lines keep their order.
    The output is these lines but the last two: the summary is printed
    only when at least two lines follow it. *)
Theorem one_summary_line input text :
  main loads dumps input = Ok text ->
  exists lines out,
    recolor input = Ok lines /\
    collapse loads dumps lines = Ok out /\
    text = Py.join EmptyString (Py.but_last2 out) +:+ LF /\
    ((Forall (fun l => Py.contains marker l = false) lines /\ out = lines) \/
     (exists first l0 items ess,
        lines !! first = Some l0 /\
        Py.contains marker l0 = true /\
        Forall (fun l => Py.contains marker l = false) (take first lines) /\
        loads l0 = Ok (JArr items) /\
        mapM (entries_of loads)
          (filter (fun l => Py.contains marker l = true) lines) = Ok ess /\
        let summary :=
          dumps (JArr (<[2:=JStr (Py.join CRLF (ellipsize (concat ess)))]> items))
            +:+ LF in
        out = take first lines ++ summary ::
              filter (fun l => Py.contains marker l = false)
                (drop (S first) lines) /\
        out !! first = Some summary /\
        (Py.but_last2 out !! first = Some summary <-> first + 2 < length out))).
Proof.
  unfold main, transform. intros (out & Hout & [= <-])%bind_ok.
  apply bind_ok in Hout as (lines & Hlines & Hout).
  exists lines, out. repeat split; try done.
  destruct (collapse_ok _ _ Hout)
    as [[Hnone ->] | (pre & l0 & tail & items & ess & -> & Hpre & Hl0 & Hrow
                      & Hlen & Hess & ->)]; [by left |].
  right. exists (length pre), l0, items, ess.
  rewrite take_app_length.
  rewrite drop_after_middle.
  split; [by rewrite list_lookup_middle |].
  split; [done |]. split; [done |]. split; [done |]. split; [done |].
  cbn zeta. split; [done |].
  assert (forall y ys, (pre ++ y :: ys) !! length pre = Some y) as Hmid
    by (intros; by rewrite list_lookup_middle).
  split; [apply Hmid |]. apply but_last2_lookup, Hmid.
Qed.

(** C1, as the code has it: a slice does not raise.  When fewer than
    two lines are left after the passes, all but the last two of them
    is the empty list, and the script prints an empty line and ends
    normally. *)
Theorem short_recording_prints_nothing input out :
  transform loads dumps input = Ok out ->
  length out < 2 ->
  Py.but_last2 out = [] /\ main loads dumps input = Ok LF.
Proof.
  intros Hout Hlen.
  assert (Py.but_last2 out = []) as Hnil.
  { unfold Py.but_last2. replace (length out - 2) with 0 by lia. done. }
  split; [done |]. unfold main. rewrite Hout. cbn [mbind result_bind].
  unfold emit. by rewrite Hnil.
Qed.

Lemma split_join_crlf xs :
  xs <> [] ->
  Forall (fun e => Py.contains CRLF e = false) xs ->
  Py.split CRLF (Py.join CRLF xs) = xs.
Proof.
  intros Hne H. induction H as [|x xs Hx Hxs IH]; [done |].
  destruct xs as [|y xs].
  - cbn [Py.join]. by apply split_absent.
  - change (Py.join CRLF (x :: y :: xs))
      with (x +:+ CRLF +:+ Py.join CRLF (y :: xs)).
    unfold CRLF in *. rewrite split_app_sep by done. f_equal. by apply IH.
Qed.

Lemma ellipsize_clean pk :
  Forall (fun e => Py.contains CRLF e = false) pk ->
  Forall (fun e => Py.contains CRLF e = false) (ellipsize pk).
Proof.
  intros H. unfold ellipsize, Py.first3, Py.last3.
  apply Forall_app. split; [by apply Forall_take |].
  apply Forall_app. split; [by repeat constructor | by apply Forall_drop].
Qed.

Lemma ellipsize_length pk :
  length (ellipsize pk) = min 3 (length pk) + 1 + min 3 (length pk).
Proof.
  unfold ellipsize, Py.first3, Py.last3.
  rewrite !length_app, length_take, length_drop. cbn [length]. lia.
Qed.

Lemma length_concat_sum {A} (ls : list (list A)) :
  length (concat ls) = sum_list (length <$> ls).
Proof.
  induction ls as [|l ls IH]; [done |].
  cbn. by rewrite length_app, IH.
Qed.

Lemma mapM_ok_Forall2 {A B} (f : A -> result B) (xs : list A) (ys : list B) :
  mapM f xs = Ok ys -> Forall2 (fun x y => f x = Ok y) xs ys.
Proof.
  revert ys. induction xs as [|x xs IH]; intros ys H.
  - injection H as <-. constructor.
  - apply mapM_cons_ok in H as (y & ys' & Hy & Hys & ->).
    constructor; [done | by apply IH].
Qed.

Lemma entries_clean l es :
  entries_of loads l = Ok es ->
  Forall (fun e => Py.contains CRLF e = false) es.
Proof.
  intros (row & payload & _ & _ & Hsplit)%entries_of_ok.
  destruct payload; try done. injection Hsplit as <-.
  apply split_pieces_clean.
Qed.

Lemma all_entries_clean ls ess :
  mapM (entries_of loads) ls = Ok ess ->
  Forall (fun e => Py.contains CRLF e = false) (concat ess).
Proof.
  intros H%mapM_ok_Forall2. induction H as [|l es ls ess Hes _ IH]; [constructor |].
  cbn [concat]. apply Forall_app. split; [by eapply entries_clean | done].
Qed.

(** C2: with at least one package line, the scan gathers the entries of
    all package lines, as many lists as there are package lines, so the
    number of entries before the truncation is the sum of their sizes;
    the truncated list has seven entries when that sum is six or more,
    and it is what the payload of the merged record splits into.  The
    block that writes the merged record runs to its end when the row
    decoded from the first package line is an array, and only then: it
    leaves the lines with the re-encoded row, whose third item is the
    joined truncated list, at the index of the first package line. *)
Theorem merged_entry_count lines st :
  scan loads lines = Ok st ->
  (exists l, l ∈ lines /\ Py.contains marker l = true) ->
  exists ess,
    mapM (entries_of loads)
      (filter (fun l => Py.contains marker l = true) lines) = Ok ess /\
    length ess = length (filter (fun l => Py.contains marker l = true) lines) /\
    1 <= length ess /\
    packages st = concat ess /\
    length (packages st) = sum_list (length <$> ess) /\
    (let merged := ellipsize (packages st) in
     merged = take 3 (packages st) ++ [ellipsis] ++
              drop (length (packages st) - 3) (packages st) /\
     Py.split CRLF (Py.join CRLF merged) = merged /\
     (6 <= sum_list (length <$> ess) ->
        length merged = 7 /\
        length (Py.split CRLF (Py.join CRLF merged)) = 7) /\
     exists first row,
       head (package_del st) = Some first /\
       package_row st = Some row /\
       (forall out, summarize dumps st lines = Ok out ->
          exists items, row = JArr items) /\
       (forall items, row = JArr items ->
          let row' := JArr (<[2 := JStr (Py.join CRLF merged)]> items) in
          summarize dumps st lines =
            Ok (<[first := dumps row' +:+ LF]> lines) /\
          <[first := dumps row' +:+ LF]> lines !! first =
            Some (dumps row' +:+ LF) /\
          subscript row' 2 = Ok (JStr (Py.join CRLF merged)))).
Proof.
  intros Hscan (l & Hl & Hm).
  rewrite scan_closed, scan_from_closed in Hscan.
  apply bind_ok in Hscan as (ess & Hess & [= <-]).
  cbn [scan_init packages package_row package_del app].
  exists ess. split; [done |].
  pose proof (Forall2_length _ _ _ (mapM_ok_Forall2 _ _ _ Hess)) as Hlen.
  split; [done |].
  assert (l ∈ filter (fun l => pkg_line l = true) lines) as Hin
    by by apply list_elem_of_filter.
  split.
  { rewrite <- Hlen. destruct (filter _ lines); [by apply elem_of_nil in Hin |].
    simpl. lia. }
  split; [done |]. split; [apply length_concat_sum |].
  cbn zeta. split; [done |].
  assert (Py.split CRLF (Py.join CRLF (ellipsize (concat ess))) =
          ellipsize (concat ess)) as Hsj.
  { apply split_join_crlf.
    - unfold ellipsize. by destruct (Py.first3 (concat ess)).
    - eapply ellipsize_clean, all_entries_clean, Hess. }
  split; [done |]. split.
  { intros H6. rewrite Hsj, ellipsize_length, length_concat_sum. lia. }
  destruct (first_pkg_line lines) as [Hnone | (pre & l0 & tail & -> & Hpre & Hl0)].
  { rewrite (filter_pkg_none _ Hnone) in Hin. by apply elem_of_nil in Hin. }
  assert (filter (fun l => pkg_line l = true) (pre ++ l0 :: tail) =
          l0 :: filter (fun l => pkg_line l = true) tail) as Hf
    by by rewrite filter_app, (filter_pkg_none _ Hpre), filter_pkg_cons, Hl0.
  pose proof Hess as Hess'. rewrite Hf in Hess'.
  apply mapM_cons_ok in Hess' as (es & ess' & Hes & _ & _).
  apply entries_of_ok in Hes as (row & payload & Hrow & Hsub & _).
  assert (first_row loads (pre ++ l0 :: tail) = Some row) as Hfirst
    by (unfold first_row; by rewrite Hf, Hrow).
  assert (indices_from 0 (pre ++ l0 :: tail) =
          length pre :: indices_from (S (length pre)) tail) as Hdel.
  { rewrite indices_from_app, (indices_from_none _ _ Hpre).
    cbn [app indices_from]. by rewrite Hl0, Nat.add_0_l. }
  exists (length pre), row. rewrite Hfirst, Hdel.
  split; [done |]. split; [done |].
  unfold summarize. cbn [package_row packages package_del].
  rewrite (subscript_truthy _ _ Hsub). split.
  - intros out (row' & Hstore & _)%bind_ok.
    destruct (store_ok _ _ _ Hsub _ Hstore) as (items & -> & _). by exists items.
  - intros items ->. cbn zeta.
    assert (2 < length items) as H2.
    { cbn [subscript] in Hsub. unfold Py.getitem in Hsub.
      destruct (items !! 2) eqn:E; [by eapply lookup_lt_Some | done]. }
    assert (forall y : value, Py.setitem items 2 y = Ok (<[2:=y]> items)) as Hset
      by (intros y; unfold Py.setitem; by rewrite decide_True).
    cbn [store]. rewrite Hset.
    cbn [mbind result_bind Py.getitem lookup list_lookup].
    assert (forall y : string,
              <[length pre:=y]> (pre ++ l0 :: tail) = pre ++ y :: tail) as Hins
      by (intros y; rewrite insert_app_r_alt by lia; by rewrite Nat.sub_diag).
    rewrite setitem_middle, Hins. split; [| split].
    + done.
    + by apply list_lookup_middle.
    + cbn [subscript]. unfold Py.getitem.
      by rewrite list_lookup_insert_eq by done.
Qed.

Lemma indices_from_ge b tail j : j ∈ indices_from b tail -> b <= j.
Proof.
  revert b. induction tail as [|y tail IH]; intros b H.
  - by apply elem_of_nil in H.
  - cbn [indices_from] in H. destruct (pkg_line y).
    + apply elem_of_cons in H as [-> | H]; [done |]. apply IH in H. lia.
    + apply IH in H. lia.
Qed.

Lemma filter_none {A} (P : A -> Prop) `{!forall x, Decision (P x)} (l : list A) :
  (forall x, x ∈ l -> ~ P x) -> filter P l = [].
Proof.
  induction l as [|x l IH]; intros Hno; [done |].
  rewrite filter_cons_False by (apply Hno; left).
  apply IH. intros y Hy. apply Hno. by right.
Qed.

(** The package lines deleted before index [i] are the package lines
    among the lines before it. *)
Lemma deleted_before b tail i :
  length (filter (fun j => j < i) (indices_from b tail)) =
  length (filter (fun l => pkg_line l = true) (take (i - b) tail)).
Proof.
  revert b. induction tail as [|y tail IH]; intros b.
  - by rewrite take_nil.
  - destruct (decide (i <= b)) as [Hle | Hgt].
    + replace (i - b) with 0 by lia. cbn [take].
      rewrite filter_none; [done |].
      intros j Hj%indices_from_ge. lia.
    + replace (i - b) with (S (i - S b)) by lia.
      cbn [take indices_from]. rewrite filter_pkg_cons.
      destruct (pkg_line y).
      * rewrite filter_cons_True by lia. cbn [length]. by rewrite IH.
      * apply IH.
Qed.

Lemma filter_not_pkg_lookup tail k x :
  tail !! k = Some x ->
  pkg_line x = false ->
  filter (fun l => pkg_line l = false) tail
    !! (k - length (filter (fun l => pkg_line l = true) (take k tail))) = Some x.
Proof.
  revert k. induction tail as [|y tail IH]; intros k Hk Hx; [done |].
  rewrite filter_not_pkg_cons. destruct k as [|k].
  - injection Hk as ->. by rewrite Hx.
  - cbn [take lookup list_lookup] in Hk |- *. rewrite filter_pkg_cons.
    destruct (pkg_line y).
    + cbn [length]. by apply IH.
    + pose proof (length_filter (fun l => pkg_line l = true) (take k tail)) as H1.
      replace (S k - length (filter (fun l => pkg_line l = true) (take k tail)))
        with (S (k - length (filter (fun l => pkg_line l = true) (take k tail)))).
      * by apply IH.
      * rewrite length_take in H1. lia.
Qed.

(** A line without the marker keeps its text through the collapser and
    moves down by the number of package lines deleted before it. *)
Lemma collapse_frame lines out i li :
  collapse loads dumps lines = Ok out ->
  lines !! i = Some li ->
  pkg_line li = false ->
  out !! (i - length (filter (fun j => j < i) (Py.from1 (pkg_indices lines))))
    = Some li.
Proof.
  intros Hout Hi Hli.
  destruct (collapse_ok _ _ Hout)
    as [[Hnone ->] | (pre & l0 & tail & items & ess & -> & Hpre & Hl0 & _ & _ & _ & ->)].
  - unfold pkg_indices. rewrite (indices_from_none _ _ Hnone).
    by rewrite Nat.sub_0_r.
  - unfold pkg_indices, Py.from1.
    rewrite indices_from_app, (indices_from_none _ _ Hpre).
    cbn [app indices_from]. rewrite Hl0. cbn [drop].
    rewrite Nat.add_0_l, drop_0, deleted_before.
    destruct (decide (i < length pre)) as [Hlt | Hge].
    + replace (i - S (length pre)) with 0 by lia.
      rewrite take_0, filter_nil. cbn [length]. rewrite Nat.sub_0_r.
      rewrite lookup_app_l in Hi |- * by done. done.
    + assert (i <> length pre) as Hne.
      { intros ->. rewrite list_lookup_middle in Hi by done.
        injection Hi as ->. by rewrite Hl0 in Hli. }
      assert (tail !! (i - S (length pre)) = Some li) as Htail.
      { rewrite lookup_app_r in Hi by lia.
        replace (i - length pre) with (S (i - S (length pre))) in Hi by lia.
        done. }
      pose proof (filter_not_pkg_lookup _ _ _ Htail Hli) as Hf.
      set (n := length (filter _ (take (i - S (length pre)) tail))) in *.
      assert (n <= i - S (length pre)) as Hn.
      { subst n. etrans; [apply length_filter |]. rewrite length_take. lia. }
      rewrite lookup_app_r by lia.
      replace (i - n - length pre) with (S (i - S (length pre) - n)) by lia.
      done.
Qed.

(** C9: a line that holds neither the prompt at the end of a payload,
    nor an escaped newline, nor the marker, and has no prompt marker
    after the first loop, goes through every pass with its text as it
    was: it is the same after the two recolouring loops, and it is in
    the lines the collapser leaves, moved down by the number of package
    lines deleted before it. *)
Theorem untouched_line_passes_through input i li :
  input !! i = Some li ->
  Py.contains prompt_end li = false ->
  Py.contains esc_newline li = false ->
  Py.contains marker li = false ->
  (forall mid a, annotate input = Ok mid -> mid !! i = Some a ->
                 Py.contains prompt a = false) ->
  exists lines,
    recolor input = Ok lines /\
    lines !! i = Some li /\
    forall out, transform loads dumps input = Ok out ->
      out !! (i - length (filter (fun j => j < i) (Py.from1 (pkg_indices lines))))
        = Some li.
Proof.
  intros Hi Hend Hnl Hm Hafter.
  assert (Py.contains prompt li = false) as Hp.
  { specialize (Hafter (annotated input) _ (annotate_closed _)
                  (annotated_lookup _ _ _ Hi)).
    rewrite rewrite_prompt_untouched in Hafter by done.
    unfold annotate_newlines, esc_newline in Hafter, Hnl.
    by rewrite (replace_absent _ _ _ _ Hnl) in Hafter. }
  assert (recolored input !! i = Some li) as Hline.
  { rewrite (recolored_lookup _ _ _ Hi). f_equal. by apply recolor_fixes_line. }
  exists (recolored input). split; [apply recolor_closed |]. split; [done |].
  intros out Hout. unfold transform in Hout.
  rewrite recolor_closed in Hout. cbn [mbind result_bind] in Hout.
  by eapply collapse_frame.
Qed.

End Collapser.

Section Runs.


Example short_array_raises :
  main Json.loads Json.dumps rec_short = Raise IndexError.
Proof. by vm_compute. Qed.

Lemma one_summary_line_witness :
  exists lines out,
    recolor rec_packages = Ok lines /\
    collapse Json.loads Json.dumps lines = Ok out /\
    length out = 6.
Proof.
  assert (exists text, main Json.loads Json.dumps rec_packages = Ok text)
    as [text Hmain] by (eexists; vm_compute; reflexivity).
  destruct (one_summary_line Json.loads Json.dumps rec_packages text Hmain)
    as (lines & out & Hlines & Hout & _).
  exists lines, out. split; [exact Hlines |]. split; [exact Hout |].
  rewrite recolor_closed in Hlines. injection Hlines as <-.
  vm_compute in Hout. by injection Hout as <-.
Defined.

(** The claim fails on a recording that ends one line after its
    package line: the run succeeds, the summary is at index 1 of the
    collapsed lines, and the output holds the first line only. *)
Lemma one_summary_line_counterexample :
  recolor rec_package_last = Ok rec_package_last /\
  Py.contains marker (event "0.2" "go: added github.com/a v1") = true /\
  collapse Json.loads Json.dumps rec_package_last =
    Ok [event "0.1" "go get";
        event "0.2" "go: added github.com/a v1\r\n...\r\ngo: added github.com/a v1";
        event "0.3" "exit"] /\
  main Json.loads Json.dumps rec_package_last = Ok (event "0.1" "go get" +:+ LF).
Proof. by vm_compute. Qed.

Lemma short_recording_prints_nothing_witness :
  main Json.loads Json.dumps [event "0.1" "exit"] = Ok LF.
Proof.
  apply (short_recording_prints_nothing Json.loads Json.dumps
           [event "0.1" "exit"] [event "0.1" "exit"]).
  - vm_compute. reflexivity.
  - simpl. lia.
Defined.

(** The claim fails on the empty recording and on a recording of one
    line: the script ends normally, with an empty line as output. *)
Lemma short_recording_counterexample :
  transform Json.loads Json.dumps [] = Ok [] /\
  main Json.loads Json.dumps [] = Ok LF /\
  transform Json.loads Json.dumps [event "0.1" "exit"] = Ok [event "0.1" "exit"] /\
  main Json.loads Json.dumps [event "0.1" "exit"] = Ok LF.
Proof. by vm_compute. Qed.

Lemma merged_entry_count_witness :
  exists st out row payload,
    scan Json.loads (recolored rec_packages) = Ok st /\
    length (packages st) = 6 /\
    length (ellipsize (packages st)) = 7 /\
    summarize Json.dumps st (recolored rec_packages) = Ok out /\
    out !! 1 = Some (Json.dumps row +:+ LF) /\
    subscript row 2 = Ok (JStr payload) /\
    length (Py.split CRLF payload) = 7.
Proof.
  assert (exists st, scan Json.loads (recolored rec_packages) = Ok st)
    as [st Hst] by (eexists; vm_compute; reflexivity).
  destruct (merged_entry_count Json.loads Json.dumps (recolored rec_packages) st Hst)
    as (ess & Hess & _ & _ & Hpk & Hlen & _ & _ & H7 & first & row & Hfirst
        & Hrow & _ & Hsum).
  { exists (event "0.2"
              "go: added github.com/a v1\r\n\u001b[0mgo: added github.com/b v1\r\n\u001b[0m").
    split; [| reflexivity]. apply list_elem_of_In. vm_compute. tauto. }
  vm_compute in Hess. injection Hess as <-.
  destruct (H7 ltac:(vm_compute; lia)) as [Hm7 Hs7].
  vm_compute in Hst. injection Hst as <-.
  injection Hfirst as <-. injection Hrow as <-.
  destruct (Hsum _ eq_refl) as (Hout & Hline & Hsub).
  eexists _, _, _, _. split; [vm_compute; reflexivity |].
  split; [exact Hlen |]. split; [exact Hm7 |].
  split; [exact Hout |]. split; [exact Hline |].
  split; [exact Hsub | exact Hs7].
Defined.

Lemma untouched_line_passes_through_witness :
  exists out,
    transform Json.loads Json.dumps rec_packages = Ok out /\
    out !! 4 = Some (event "0.6" "exit").
Proof.
  assert (exists out, transform Json.loads Json.dumps rec_packages = Ok out)
    as [out Hout] by (eexists; vm_compute; reflexivity).
  destruct (untouched_line_passes_through Json.loads Json.dumps rec_packages 5
              (event "0.6" "exit") eq_refl eq_refl eq_refl eq_refl)
    as (lines & Hlines & _ & Hframe).
  { intros mid a Hmid Ha. rewrite annotate_closed in Hmid. injection Hmid as <-.
    vm_compute in Ha. by injection Ha as <-. }
  exists out. split; [exact Hout |].
  rewrite recolor_closed in Hlines. injection Hlines as <-.
  exact (Hframe out Hout).
Defined.

End Runs.

(** ** The decoder on recoloured lines *)

Section Decoder.

Implicit Types s r t u p : string.

Lemma rest_of_refl s : rest_of s s.
Proof. by exists EmptyString. Qed.

Lemma rest_of_trans r t s : rest_of r t -> rest_of t s -> rest_of r s.
Proof.
  intros [u ->] [v ->]. exists (v +:+ u). by rewrite sapp_assoc.
Qed.

Lemma rest_of_cons c r s : rest_of r s -> rest_of r (String c s).
Proof. intros [u ->]. by exists (String c u). Qed.

Lemma rest_of_tail c s : rest_of s (String c s).
Proof. apply rest_of_cons, rest_of_refl. Qed.

Lemma followed_rest q f r s :
  rest_of r s -> followed q f s = true -> followed q f r = true.
Proof.
  intros [u ->]. induction u as [|c u IH]; [done |].
  change (String c u +:+ r) with (String c (u +:+ r)).
  rewrite followed_cons. intros [_ H]%andb_true_iff. by apply IH.
Qed.

Lemma contains_rest q r s :
  rest_of r s -> Py.contains q s = false -> Py.contains q r = false.
Proof.
  intros [u ->] H. destruct (Py.contains q r) eqn:Hr; [| done].
  by rewrite (contains_app_r _ _ _ Hr) in H.
Qed.

Lemma plain_newline_escapes_rest r s :
  rest_of r s -> plain_newline_escapes s = true -> plain_newline_escapes r = true.
Proof.
  unfold plain_newline_escapes. intros Hr H.
  repeat (apply andb_true_iff in H as [H ?]).
  repeat (apply andb_true_iff; split);
    apply negb_true_iff; eapply contains_rest; try done; by apply negb_true_iff.
Qed.

Lemma annotated_text_rest r s :
  rest_of r s -> annotated_text s = true -> annotated_text r = true.
Proof.
  unfold annotated_text. intros Hr [H1 H2]%andb_true_iff.
  apply andb_true_iff. split.
  - by eapply followed_rest.
  - by eapply plain_newline_escapes_rest.
Qed.

(** *** Hexadecimal escapes *)

Lemma hex_digit_bound c v : Json.hex_digit c = Some v -> (v < 16)%N.
Proof.
  unfold Json.hex_digit. generalize (N_of_ascii c). intros n.
  destruct ((48 <=? n)%N && (n <=? 57)%N) eqn:H1.
  { apply andb_true_iff in H1 as [?%N.leb_le ?%N.leb_le]. intros [= <-]. lia. }
  destruct ((65 <=? n)%N && (n <=? 70)%N) eqn:H2.
  { apply andb_true_iff in H2 as [?%N.leb_le ?%N.leb_le]. intros [= <-]. lia. }
  destruct ((97 <=? n)%N && (n <=? 102)%N) eqn:H3; [| done].
  apply andb_true_iff in H3 as [?%N.leb_le ?%N.leb_le]. intros [= <-]. lia.
Qed.

Lemma hex_digit_zero c : Json.hex_digit c = Some 0%N -> c = "0"%char.
Proof. destruct c as [[] [] [] [] [] [] [] []]; by vm_compute. Qed.

Lemma hex_digit_ten c :
  Json.hex_digit c = Some 10%N -> c = "a"%char \/ c = "A"%char.
Proof. destruct c as [[] [] [] [] [] [] [] []]; vm_compute; (discriminate || tauto). Qed.

Lemma hex_digit_thirteen c :
  Json.hex_digit c = Some 13%N -> c = "d"%char \/ c = "D"%char.
Proof. destruct c as [[] [] [] [] [] [] [] []]; vm_compute; (discriminate || tauto). Qed.

Lemma hex4_bound a b c d (cp : N) :
  Json.hex4 a b c d = Ok cp -> (cp < 65536)%N.
Proof.
  unfold Json.hex4.
  destruct (Json.hex_digit a) as [x|] eqn:Ha; [| done].
  destruct (Json.hex_digit b) as [y|] eqn:Hb; [| done].
  destruct (Json.hex_digit c) as [z|] eqn:Hc; [| done].
  destruct (Json.hex_digit d) as [w|] eqn:Hd; [| done].
  apply hex_digit_bound in Ha, Hb, Hc, Hd. intros [= <-]. lia.
Qed.

Lemma hex4_small a b c d (cp : N) :
  Json.hex4 a b c d = Ok cp -> (cp < 16)%N ->
  a = "0"%char /\ b = "0"%char /\ c = "0"%char /\ Json.hex_digit d = Some cp.
Proof.
  unfold Json.hex4.
  destruct (Json.hex_digit a) as [x|] eqn:Ha; [| done].
  destruct (Json.hex_digit b) as [y|] eqn:Hb; [| done].
  destruct (Json.hex_digit c) as [z|] eqn:Hc; [| done].
  destruct (Json.hex_digit d) as [w|] eqn:Hd; [| done].
  pose proof (hex_digit_bound _ _ Hd). intros [= <-] Hcp.
  assert (x = 0 /\ y = 0 /\ z = 0)%N as (-> & -> & ->) by lia.
  split; [by apply hex_digit_zero |]. split; [by apply hex_digit_zero |].
  split; [by apply hex_digit_zero |]. reflexivity.
Qed.

(** *** The bytes of a decoded code point *)

Lemma byte_eqb (n k : N) :
  (n < 256)%N -> (k < 256)%N -> n <> k ->
  Ascii.eqb (Json.byte n) (ascii_of_N k) = false.
Proof.
  intros Hn Hk Hne. apply Ascii.eqb_neq. intros Heq.
  apply (f_equal N_of_ascii) in Heq. unfold Json.byte in Heq.
  by rewrite !N_ascii_embedding in Heq.
Qed.

(** A code point other than [k] has no byte [k], for [k] below 128. *)
Lemma utf8_without (cp k : N) :
  (cp < 1114112)%N -> (k < 128)%N -> cp <> k ->
  all_chars (fun c => negb (Ascii.eqb c (ascii_of_N k))) (Json.utf8 cp) = true.
Proof.
  intros Hcp Hk Hne. unfold Json.utf8.
  assert (cp / 64 < 17408)%N as Hq1 by (apply N.Div0.div_lt_upper_bound; lia).
  assert (cp / 4096 < 272)%N as Hq2 by (apply N.Div0.div_lt_upper_bound; lia).
  assert (cp / 262144 < 5)%N as Hq3 by (apply N.Div0.div_lt_upper_bound; lia).
  assert (cp < 2048 -> cp / 64 < 32)%N as Hq4
    by (intros; apply N.Div0.div_lt_upper_bound; lia).
  assert (cp < 65536 -> cp / 4096 < 16)%N as Hq5
    by (intros; apply N.Div0.div_lt_upper_bound; lia).
  pose proof (N.mod_lt cp 64 ltac:(done)) as Hm1.
  pose proof (N.mod_lt (cp / 64) 64 ltac:(done)) as Hm2.
  pose proof (N.mod_lt (cp / 4096) 64 ltac:(done)) as Hm3.
  set (m1 := (cp mod 64)%N) in *. set (m2 := ((cp / 64) mod 64)%N) in *.
  set (m3 := ((cp / 4096) mod 64)%N) in *.
  set (q1 := (cp / 64)%N) in *. set (q2 := (cp / 4096)%N) in *.
  set (q3 := (cp / 262144)%N) in *. clearbody m1 m2 m3 q1 q2 q3.
  destruct (cp <? 128)%N eqn:H1; [apply N.ltb_lt in H1 | apply N.ltb_ge in H1].
  { cbn [all_chars]. rewrite byte_eqb; [done | lia..]. }
  destruct (cp <? 2048)%N eqn:H2; [apply N.ltb_lt in H2 | apply N.ltb_ge in H2].
  { cbn [all_chars]. rewrite !byte_eqb; [done | lia..]. }
  destruct (cp <? 65536)%N eqn:H3; [apply N.ltb_lt in H3 | apply N.ltb_ge in H3].
  { cbn [all_chars]. rewrite !byte_eqb; [done | lia..]. }
  cbn [all_chars]. rewrite !byte_eqb; [done | lia..].
Qed.

Lemma followed_without_cr f u p :
  all_chars (fun c => negb (Ascii.eqb c "013")) u = true ->
  followed CRLF f (u +:+ p) = followed CRLF f p.
Proof.
  induction u as [|c u IH]; intros H; [done |].
  cbn [all_chars] in H. apply andb_true_iff in H as [Hc Hu].
  change (String c u +:+ p) with (String c (u +:+ p)).
  rewrite followed_cons, (IH Hu).
  apply negb_true_iff in Hc. rewrite Ascii.eqb_sym in Hc.
  unfold CRLF. cbn [Py.starts]. by rewrite Hc.
Qed.

Lemma starts_without_lf u p :
  all_chars (fun c => negb (Ascii.eqb c "010")) u = true ->
  Py.starts LF (u +:+ p) = true -> u = EmptyString.
Proof.
  destruct u as [|c u]; [done |]. cbn [all_chars]. intros [Hc _]%andb_true_iff.
  change (String c u +:+ p) with (String c (u +:+ p)).
  unfold LF. cbn [Py.starts]. apply negb_true_iff in Hc.
  rewrite Ascii.eqb_sym in Hc. by rewrite Hc.
Qed.

Lemma utf8_nonempty cp : Json.utf8 cp <> EmptyString.
Proof. unfold Json.utf8. by repeat case_match. Qed.

(** *** One step of [scanstring] *)

(** What a successful [scanstring] has read first: the closing quote, a
    plain character, a one-letter escape, or a four-digit escape (alone
    or as the high half of a surrogate pair), and then the rest. *)
Lemma scanstring_step s p r :
  Json.scanstring s = Ok (p, r) ->
  (s = String Json.quote r /\ p = EmptyString) \/
  (exists c s' p',
     s = String c s' /\ (32 <= N_of_ascii c)%N /\
     Json.scanstring s' = Ok (p', r) /\ p = String c p') \/
  (exists e ch s' p',
     s = String Json.backslash (String e s') /\ e <> "u"%char /\
     Json.unescape e = Ok ch /\
     Json.scanstring s' = Ok (p', r) /\ p = String ch p') \/
  (exists h1 h2 h3 h4 s1 uni cp s' p',
     s = String Json.backslash (String "u" (String h1 (String h2
           (String h3 (String h4 s1))))) /\
     Json.hex4 h1 h2 h3 h4 = Ok uni /\
     (cp = uni \/ (65536 <= cp)%N) /\ (cp < 1114112)%N /\
     rest_of s' s1 /\
     Json.scanstring s' = Ok (p', r) /\ p = Json.utf8 cp +:+ p').
Proof.
  destruct s as [|c s]; [done |]. cbn [Json.scanstring].
  destruct (Ascii.eqb_spec c Json.quote) as [-> | Hq].
  { intros [= <- <-]. by left. }
  destruct (Ascii.eqb_spec c Json.backslash) as [-> | Hb].
  - destruct s as [|e s]; [done |].
    destruct (Ascii.eqb_spec e "u") as [-> | Hu].
    + destruct s as [|h1 [|h2 [|h3 [|h4 s1]]]]; try done.
      intros (uni & Huni & H)%bind_ok. right. right. right.
      pose proof (hex4_bound _ _ _ _ _ Huni) as Hb16.
      apply bind_ok in H as (pair & Hpair & H).
      destruct pair as [[lo rlo]|].
      * destruct (Json.is_high_surrogate uni) eqn:Hhi; [| done].
        unfold Json.low_half in Hpair.
        destruct s1 as [|b1 [|b2 [|g1 [|g2 [|g3 [|g4 s3]]]]]]; try done.
        destruct (Ascii.eqb b1 Json.backslash && Ascii.eqb b2 "u"); [| done].
        apply bind_ok in Hpair as (lo' & Hlo & Hpair).
        destruct (Json.is_low_surrogate lo') eqn:Hlow; [| done].
        injection Hpair as -> ->.
        apply bind_ok in H as ([p' rest] & Hp' & [= <- <-]).
        pose proof (hex4_bound _ _ _ _ _ Hlo) as Hlo16.
        unfold Json.is_high_surrogate in Hhi. unfold Json.is_low_surrogate in Hlow.
        apply andb_true_iff in Hhi as [?%N.leb_le ?%N.leb_le].
        apply andb_true_iff in Hlow as [?%N.leb_le ?%N.leb_le].
        eexists h1, h2, h3, h4, _, uni,
          (65536 + ((uni - 55296) * 1024 + (lo - 56320)))%N, rlo, p'.
        repeat split; try done; [right; lia | lia |].
        by exists (String b1 (String b2 (String g1 (String g2 (String g3
                     (String g4 EmptyString)))))).
      * assert (Json.scanstring s1 ≫=
                  (fun '(p0, rest) => Ok (Json.utf8 uni +:+ p0, rest)) = Ok (p, r))
          as H' by by destruct s1 as [|? [|? [|? [|? [|? [|? ?]]]]]].
        apply bind_ok in H' as ([p' rest] & Hp' & [= <- <-]).
        exists h1, h2, h3, h4, s1, uni, uni, s1, p'.
        repeat split; try done; [by left | lia | apply rest_of_refl].
    + intros (ch & Hch & H)%bind_ok.
      apply bind_ok in H as ([p' rest] & Hp' & [= <- <-]).
      right. right. left. by exists e, ch, s, p'.
  - destruct (N_of_ascii c <? 32)%N eqn:Hc; [done |]. apply N.ltb_ge in Hc.
    intros ([p' rest] & Hp' & [= <- <-])%bind_ok.
    right. left. by exists c, s, p'.
Qed.

Lemma unescape_cr e : Json.unescape e = Ok "013"%char -> e = "r"%char.
Proof.
  unfold Json.unescape.
  repeat match goal with
         | |- context [Ascii.eqb e ?c] =>
             destruct (Ascii.eqb_spec e c) as [-> | _];
             [intros H; vm_compute in H; done |]
         end.
  done.
Qed.

Lemma unescape_lf e : Json.unescape e = Ok "010"%char -> e = "n"%char.
Proof.
  unfold Json.unescape.
  repeat match goal with
         | |- context [Ascii.eqb e ?c] =>
             destruct (Ascii.eqb_spec e c) as [-> | _];
             [intros H; vm_compute in H; done |]
         end.
  done.
Qed.

Lemma scanstring_plain c s :
  Ascii.eqb c Json.quote = false -> Ascii.eqb c Json.backslash = false ->
  (N_of_ascii c <? 32)%N = false ->
  Json.scanstring (String c s) =
  Json.scanstring s ≫= fun '(p, rest) => Ok (String c p, rest).
Proof. intros Hq Hb Hc. cbn [Json.scanstring]. by rewrite Hq, Hb, Hc. Qed.

Lemma scanstring_escape e s :
  Ascii.eqb e "u" = false ->
  Json.scanstring (String Json.backslash (String e s)) =
  Json.unescape e ≫= fun ch =>
    Json.scanstring s ≫= fun '(p, rest) => Ok (String ch p, rest).
Proof. intros He. cbn [Json.scanstring]. by rewrite He. Qed.

Lemma scanstring_unicode h1 h2 h3 h4 (uni : N) s :
  Json.hex4 h1 h2 h3 h4 = Ok uni ->
  Json.is_high_surrogate uni = false ->
  Json.scanstring
    (String Json.backslash (String "u" (String h1 (String h2 (String h3
       (String h4 s)))))) =
  Json.scanstring s ≫= fun '(p, rest) => Ok (Json.utf8 uni +:+ p, rest).
Proof.
  intros Huni Hhi. cbn [Json.scanstring].
  change (Ascii.eqb Json.backslash Json.quote) with false.
  change (Ascii.eqb Json.backslash Json.backslash) with true.
  change (Ascii.eqb "u" "u") with true. cbn iota.
  rewrite Huni. cbn [mbind result_bind]. rewrite Hhi. cbn [mbind result_bind].
  reflexivity.
Qed.

(** The escaped newline and the escaped reset decode to LF and the
    reset. *)
Lemma scanstring_newline_reset s :
  Json.scanstring ("\n" +:+ reset +:+ s) =
  Json.scanstring s ≫= fun '(q, rest) => Ok (LF +:+ reset_code +:+ q, rest).
Proof.
  change ("\n" +:+ reset +:+ s)
    with (String Json.backslash (String "n" (String Json.backslash (String "u"
            (String "0" (String "0" (String "1" (String "b"
               (String "[" (String "0" (String "m" s))))))))))).
  rewrite scanstring_escape by done.
  rewrite (scanstring_unicode "0" "0" "1" "b" 27) by done.
  rewrite !scanstring_plain by done.
  by destruct (Json.scanstring s) as [[q rest]|].
Qed.

Lemma plain_newline_escapes_head s :
  plain_newline_escapes s = true ->
  Py.starts "\u000a" s = false /\ Py.starts "\u000A" s = false /\
  Py.starts "\u000d" s = false /\ Py.starts "\u000D" s = false.
Proof.
  unfold plain_newline_escapes. intros H.
  repeat (apply andb_true_iff in H as [H ?%negb_true_iff]).
  apply negb_true_iff in H.
  repeat split;
    match goal with
    | |- Py.starts ?q ?s = false =>
        destruct (Py.starts q s) eqn:Hs; [| done];
        apply contains_starts in Hs; congruence
    end.
Qed.

(** A decoded string starts with LF only when the text starts with the
    escaped newline. *)
Lemma scanstring_lf_head s p r :
  plain_newline_escapes s = true ->
  Json.scanstring s = Ok (p, r) ->
  Py.starts LF p = true ->
  exists s', s = "\n" +:+ s'.
Proof.
  intros Hplain Hscan Hlf.
  destruct (plain_newline_escapes_head _ Hplain) as (Ha & HA & _ & _).
  destruct (scanstring_step _ _ _ Hscan)
    as [[-> ->] | [(c & s' & p' & -> & Hc & _ & ->) |
        [(e & ch & s' & p' & -> & _ & Hch & _ & ->) |
         (h1 & h2 & h3 & h4 & s1 & uni & cp & s' & p' & -> & Huni & Hcp & Hmax
          & _ & _ & ->)]]].
  - done.
  - unfold LF in Hlf. cbn [Py.starts] in Hlf.
    apply andb_true_iff in Hlf as [<-%Ascii.eqb_eq _]. by vm_compute in Hc.
  - unfold LF in Hlf. cbn [Py.starts] in Hlf.
    apply andb_true_iff in Hlf as [<-%Ascii.eqb_eq _].
    apply unescape_lf in Hch as ->. by exists s'.
  - exfalso. destruct (decide (cp = 10%N)) as [-> | Hne].
    + destruct Hcp as [<- | ?]; [| lia].
      apply hex4_small in Huni as (-> & -> & -> & Hd); [| lia].
      apply hex_digit_ten in Hd as [-> | ->].
      * by cbv in Ha.
      * by cbv in HA.
    + pose proof (utf8_without cp 10 Hmax ltac:(lia) Hne) as Hno.
      apply (starts_without_lf _ _ Hno) in Hlf. by apply utf8_nonempty in Hlf.
Qed.

Lemma rest_of_length r s : rest_of r s -> String.length r <= String.length s.
Proof. intros [u ->]. rewrite sapp_length. lia. Qed.

Lemma followed_cons_plain f c p :
  Ascii.eqb c "013" = false ->
  followed CRLF f (String c p) = followed CRLF f p.
Proof.
  intros Hc. apply (followed_without_cr f (String c EmptyString) p).
  cbn [all_chars]. by rewrite Hc.
Qed.

Lemma plain_not_cr c : (32 <= N_of_ascii c)%N -> Ascii.eqb c "013" = false.
Proof.
  intros Hc. apply Ascii.eqb_neq. intros ->. by vm_compute in Hc.
Qed.

(** [scanstring] on a recoloured text: in the decoded string every
    CR LF is followed by the reset, and what is left is a rest of the
    text. *)
Lemma scanstring_followed s p r :
  annotated_text s = true ->
  Json.scanstring s = Ok (p, r) ->
  followed CRLF reset_code p = true /\ rest_of r s.
Proof.
  remember (String.length s) as n eqn:Hn.
  revert s p r Hn. induction (lt_wf n) as [n _ IH]. intros s p r -> Htext Hscan.
  pose proof Htext as [Hfol Hplain]%andb_true_iff.
  destruct (scanstring_step _ _ _ Hscan)
    as [[-> ->] | [(c & s' & p' & -> & Hc & Hs' & ->) |
        [(e & ch & s' & p' & -> & He & Hch & Hs' & ->) |
         (h1 & h2 & h3 & h4 & s1 & uni & cp & s' & p' & -> & Huni & Hcp & Hmax
          & Hrest & Hs' & ->)]]].
  - split; [done | apply rest_of_tail].
  - assert (rest_of s' (String c s')) as Hr by apply rest_of_tail.
    destruct (IH (String.length s') ltac:(simpl; lia) s' p' r eq_refl
                (annotated_text_rest _ _ Hr Htext) Hs') as [Hp' Hr'].
    split; [| by eapply rest_of_trans].
    by rewrite followed_cons_plain by by apply plain_not_cr.
  - assert (rest_of s' (String Json.backslash (String e s'))) as Hr
      by apply rest_of_cons, rest_of_tail.
    destruct (IH (String.length s') ltac:(simpl; lia) s' p' r eq_refl
                (annotated_text_rest _ _ Hr Htext) Hs') as [Hp' Hr'].
    split; [| by eapply rest_of_trans].
    destruct (Ascii.eqb_spec ch "013") as [-> | Hne];
      [| by rewrite followed_cons_plain by by apply Ascii.eqb_neq].
    apply unescape_cr in Hch as ->.
    rewrite followed_cons, Hp', andb_true_r.
    change ((if Py.starts LF p'
             then Py.starts (CRLF +:+ reset_code) (String "013" p')
             else true) = true).
    destruct (Py.starts LF p') eqn:Hlf; [| done].
    pose proof (annotated_text_rest _ _ Hr Htext) as [_ Hplain']%andb_true_iff.
    destruct (scanstring_lf_head _ _ _ Hplain' Hs' Hlf) as [s2 ->].
    rewrite followed_cons in Hfol. apply andb_true_iff in Hfol as [Hhead _].
    change (String Json.backslash (String "r" ("\n" +:+ s2)))
      with (esc_newline +:+ s2) in Hhead.
    rewrite starts_app in Hhead. apply starts_split in Hhead as [s3 Hs3].
    unfold esc_newline in Hs3. rewrite !sapp_assoc in Hs3.
    injection Hs3 as ->.
    change (Json.scanstring ("\n" +:+ reset +:+ s3) = Ok (p', r)) in Hs'.
    rewrite scanstring_newline_reset in Hs'.
    apply bind_ok in Hs' as ([q rest] & _ & [= <- <-]). done.
  - assert (rest_of s1 (String Json.backslash (String "u" (String h1 (String h2
              (String h3 (String h4 s1))))))) as Hr
      by (do 5 apply rest_of_cons; apply rest_of_tail).
    pose proof (rest_of_trans _ _ _ Hrest Hr) as Hr2.
    pose proof (rest_of_length _ _ Hrest) as Hlen.
    destruct (IH (String.length s') ltac:(simpl; lia) s' p' r eq_refl
                (annotated_text_rest _ _ Hr2 Htext) Hs') as [Hp' Hr'].
    split; [| by eapply rest_of_trans].
    destruct (decide (cp = 13%N)) as [-> | Hne].
    + exfalso. destruct Hcp as [<- | ?]; [| lia].
      destruct (plain_newline_escapes_head _ Hplain) as (_ & _ & Hd & HD).
      apply hex4_small in Huni as (-> & -> & -> & H13); [| lia].
      apply hex_digit_thirteen in H13 as [-> | ->].
      * by cbv in Hd.
      * by cbv in HD.
    + rewrite followed_without_cr; [done |].
      by apply (utf8_without cp 13).
Qed.

(** *** What the scanners leave *)

Lemma skip_ws_rest s : rest_of (Json.skip_ws s) s.
Proof.
  induction s as [|c s IH]; [apply rest_of_refl |]. cbn [Json.skip_ws].
  destruct (Json.is_ws c); [by apply rest_of_cons | apply rest_of_refl].
Qed.

Lemma strip_prefix_rest q s r : Json.strip_prefix q s = Some r -> rest_of r s.
Proof.
  revert s. induction q as [|a q IH]; intros [|b s] H; cbn in H; try done.
  - injection H as <-. apply rest_of_refl.
  - injection H as <-. apply rest_of_refl.
  - destruct (Ascii.eqb a b); [| done]. by apply rest_of_cons, IH.
Qed.

Lemma span_digits_rest s : rest_of (Json.span_digits s).2 s.
Proof.
  induction s as [|c s IH]; [apply rest_of_refl |]. cbn [Json.span_digits].
  destruct (Json.is_digit c); [| apply rest_of_refl].
  destruct (Json.span_digits s) as [ds rest]. by apply rest_of_cons.
Qed.

Lemma scan_int_part_rest s ds r :
  Json.scan_int_part s = Some (ds, r) -> rest_of r s.
Proof.
  destruct s as [|c s]; [done |]. cbn [Json.scan_int_part].
  destruct (Ascii.eqb c "0"); [intros [= <- <-]; apply rest_of_tail |].
  destruct (Json.is_digit c); [| done].
  pose proof (span_digits_rest (String c s)) as H.
  destruct (Json.span_digits (String c s)) as [ds' r']. by intros [= <- <-].
Qed.

Lemma scan_frac_rest s : rest_of (Json.scan_frac s).2 s.
Proof.
  destruct s as [|c s]; [apply rest_of_refl |]. cbn [Json.scan_frac].
  destruct (Ascii.eqb c "."); [| apply rest_of_refl].
  pose proof (span_digits_rest s) as H.
  destruct (Json.span_digits s) as [[|d ds] r']; [apply rest_of_refl |].
  by apply rest_of_cons.
Qed.

Lemma scan_exp_rest s : rest_of (Json.scan_exp s).2 s.
Proof.
  destruct s as [|c s]; [apply rest_of_refl |]. cbn [Json.scan_exp].
  destruct (Ascii.eqb c "e" || Ascii.eqb c "E"); [| apply rest_of_refl].
  destruct s as [|g s'].
  - cbn. apply rest_of_refl.
  - destruct (Ascii.eqb g "-" || Ascii.eqb g "+").
    + pose proof (span_digits_rest s') as H.
      destruct (Json.span_digits s') as [[|d ds] r']; [apply rest_of_refl |].
      by do 2 apply rest_of_cons.
    + pose proof (span_digits_rest (String g s')) as H.
      destruct (Json.span_digits (String g s')) as [[|d ds] r'];
        [apply rest_of_refl |].
      by apply rest_of_cons.
Qed.

(** A number is read off the head of the text and holds no string. *)
Lemma scan_number_rest s v r :
  Json.scan_number s = Some (v, r) ->
  rest_of r s /\ strings_followed v = true.
Proof.
  unfold Json.scan_number.
  set (start := match s with
                | String c r0 => if Ascii.eqb c "-" then (true, r0) else (false, s)
                | EmptyString => (false, s)
                end).
  assert (rest_of start.2 s) as Hstart.
  { subst start. destruct s as [|c s]; [apply rest_of_refl |].
    destruct (Ascii.eqb c "-"); [apply rest_of_tail | apply rest_of_refl]. }
  destruct start as [neg s1]. cbn [snd] in Hstart.
  destruct (Json.scan_int_part s1) as [[int r1]|] eqn:Hint; [| done].
  apply scan_int_part_rest in Hint.
  pose proof (scan_frac_rest r1) as Hfrac.
  destruct (Json.scan_frac r1) as [frac r2].
  pose proof (scan_exp_rest r2) as Hexp.
  destruct (Json.scan_exp r2) as [exp r3]. cbn [snd] in Hfrac, Hexp.
  assert (rest_of r3 s) as Hr3
    by (eapply rest_of_trans; [| exact Hstart];
        eapply rest_of_trans; [| exact Hint];
        eapply rest_of_trans; [exact Hexp | exact Hfrac]).
  destruct frac, exp; intros [= <- <-]; by split.
Qed.

Lemma scan_atom_rest s v r :
  Json.scan_atom s = Ok (v, r) ->
  rest_of r s /\ strings_followed v = true.
Proof.
  unfold Json.scan_atom.
  repeat match goal with
         | |- context [Json.strip_prefix ?q s] =>
             let H := fresh "H" in
             destruct (Json.strip_prefix q s) as [?|] eqn:H;
             [apply strip_prefix_rest in H; by intros [= <- <-] |]
         | |- context [Json.scan_number s] =>
             let H := fresh "H" in
             destruct (Json.scan_number s) as [[? ?]|] eqn:H;
             [apply scan_number_rest in H; by intros [= <- <-] |]
         end.
  done.
Qed.

Lemma forallb_snoc {A} (f : A -> bool) (l : list A) (x : A) :
  forallb f l = true -> f x = true -> forallb f (l ++ [x]) = true.
Proof.
  intros Hl Hx. rewrite forallb_app, Hl. cbn. by rewrite Hx.
Qed.

(** The three scanners on a recoloured text: every payload string of
    the value has its resets, and what is left is a rest of the text. *)
Lemma scan_followed fuel :
  (forall s v r,
     annotated_text s = true -> Json.scan_once fuel s = Ok (v, r) ->
     strings_followed v = true /\ rest_of r s) /\
  (forall acc s v r,
     annotated_text s = true -> forallb strings_followed acc = true ->
     Json.scan_array fuel acc s = Ok (v, r) ->
     strings_followed v = true /\ rest_of r s) /\
  (forall acc s v r,
     annotated_text s = true -> Json.scan_object fuel acc s = Ok (v, r) ->
     strings_followed v = true /\ rest_of r s).
Proof.
  induction fuel as [|fuel (IH1 & IH2 & IH3)]; [by repeat split |].
  assert (forall s t, rest_of t s -> annotated_text s = true ->
                      annotated_text (Json.skip_ws t) = true) as Hws.
  { intros s t Ht Hs. eapply annotated_text_rest; [| exact Hs].
    eapply rest_of_trans; [apply skip_ws_rest | exact Ht]. }
  split; [| split].
  - intros [|c r0] v r Htext; [done |]. cbn [Json.scan_once].
    assert (rest_of r0 (String c r0)) as Hr0 by apply rest_of_tail.
    destruct (Ascii.eqb c Json.quote).
    { intros ([str rest] & Hstr & [= <- <-])%bind_ok.
      apply scanstring_followed in Hstr as [Hf Hrest];
        [| by eapply annotated_text_rest].
      split; [done | by eapply rest_of_trans]. }
    destruct (Ascii.eqb c "{").
    { pose proof (skip_ws_rest r0) as Hsk. pose proof (Hws _ _ Hr0 Htext) as Hann.
      destruct (Json.skip_ws r0) as [|c' r']; [done |].
      assert (rest_of r' (String c r0)) as Hr'
        by (eapply rest_of_trans; [| exact Hr0];
            eapply rest_of_trans; [apply rest_of_tail | exact Hsk]).
      destruct (Ascii.eqb c' "}"); [by intros [= <- <-] |].
      destruct (Ascii.eqb c' Json.quote); [| done].
      intros H. apply IH3 in H as [Hf Hrest];
        [| by eapply annotated_text_rest].
      split; [done | by eapply rest_of_trans]. }
    destruct (Ascii.eqb c "[").
    { pose proof (skip_ws_rest r0) as Hsk. pose proof (Hws _ _ Hr0 Htext) as Hann.
      destruct (Json.skip_ws r0) as [|c' r']; [done |].
      destruct (Ascii.eqb c' "]").
      { intros [= <- <-]. split; [done |].
        eapply rest_of_trans; [| exact Hr0].
        eapply rest_of_trans; [apply rest_of_tail | exact Hsk]. }
      intros H. apply IH2 in H as [Hf Hrest]; [| done | done].
      split; [done |].
      eapply rest_of_trans; [exact Hrest |]. by eapply rest_of_trans. }
    intros H. by apply scan_atom_rest in H as [? ?].
  - intros acc s v r Htext Hacc. cbn [Json.scan_array].
    intros ([v1 r1] & Hv1 & H)%bind_ok.
    apply IH1 in Hv1 as [Hf1 Hr1]; [| done].
    pose proof (skip_ws_rest r1) as Hsk.
    destruct (Json.skip_ws r1) as [|c r']; [done |].
    assert (rest_of r' s) as Hr'
      by (eapply rest_of_trans; [| exact Hr1];
          eapply rest_of_trans; [apply rest_of_tail | exact Hsk]).
    destruct (Ascii.eqb c "]").
    { injection H as <- <-. split; [| done]. cbn [strings_followed].
      by apply forallb_snoc. }
    destruct (Ascii.eqb c ","); [| done].
    apply IH2 in H as [Hf Hrest];
      [| by eapply Hws | by apply forallb_snoc].
    split; [done |]. eapply rest_of_trans; [exact Hrest |].
    eapply rest_of_trans; [apply skip_ws_rest | exact Hr'].
  - intros acc s v r Htext. cbn [Json.scan_object].
    intros ([key r0] & Hkey & H)%bind_ok.
    apply scanstring_followed in Hkey as [_ Hr0]; [| done].
    pose proof (skip_ws_rest r0) as Hsk.
    destruct (Json.skip_ws r0) as [|c r1]; [done |].
    assert (rest_of r1 s) as Hr1
      by (eapply rest_of_trans; [| exact Hr0];
          eapply rest_of_trans; [apply rest_of_tail | exact Hsk]).
    destruct (Ascii.eqb c ":"); [| done].
    apply bind_ok in H as ([v2 r2] & Hv2 & H).
    apply IH1 in Hv2 as [_ Hr2]; [| by eapply Hws].
    assert (rest_of r2 s) as Hr2'
      by (eapply rest_of_trans; [exact Hr2 |];
          eapply rest_of_trans; [apply skip_ws_rest | exact Hr1]).
    pose proof (skip_ws_rest r2) as Hsk2.
    destruct (Json.skip_ws r2) as [|c2 r3]; [done |].
    assert (rest_of r3 s) as Hr3
      by (eapply rest_of_trans; [| exact Hr2'];
          eapply rest_of_trans; [apply rest_of_tail | exact Hsk2]).
    destruct (Ascii.eqb c2 "}"); [by injection H as <- <- |].
    destruct (Ascii.eqb c2 ","); [| done].
    pose proof (skip_ws_rest r3) as Hsk3.
    destruct (Json.skip_ws r3) as [|c3 r4]; [done |].
    assert (rest_of r4 s) as Hr4
      by (eapply rest_of_trans; [| exact Hr3];
          eapply rest_of_trans; [apply rest_of_tail | exact Hsk3]).
    destruct (Ascii.eqb c3 Json.quote); [| done].
    apply IH3 in H as [Hf Hrest]; [| by eapply annotated_text_rest].
    split; [done | by eapply rest_of_trans].
Qed.

(** [json.loads] on a recoloured line. *)
Lemma loads_followed s v :
  annotated_text s = true -> Json.loads s = Ok v -> strings_followed v = true.
Proof.
  unfold Json.loads. intros Htext ([v' r] & Hscan & H)%bind_ok.
  destruct (Json.skip_ws r); [| done]. injection H as <-.
  eapply (proj1 (scan_followed _)); [| exact Hscan].
  eapply annotated_text_rest; [apply skip_ws_rest | exact Htext].
Qed.

(** *** From the decoded payload to its entries *)

(** A text that diverges from the separator at each of its suffixes
    stays at the head of the first piece. *)
Lemma split_inert a sep f t q qs :
  every_suffix (fun n' => diverge (String a sep) n') f = true ->
  Py.split (String a sep) t = q :: qs ->
  Py.split (String a sep) (f +:+ t) = (f +:+ q) :: qs.
Proof.
  intros Hf Hq. induction f as [|c f IH]; [done |].
  rewrite every_suffix_cons in Hf. apply andb_true_iff in Hf as [Hdiv Hf].
  pose proof (diverge_starts _ _ t Hdiv) as Hst.
  change (String c f +:+ t) with (String c (f +:+ t)) in Hst |- *.
  destruct (split_other _ _ _ Hst) as (q' & qs' & Hq' & ->).
  rewrite (IH Hf) in Hq'. by injection Hq' as <- <-.
Qed.

(** When every separator of a text is followed by [f], every piece
    after the first begins with [f]. *)
Lemma split_followed_by a sep f p :
  every_suffix (fun n' => diverge (String a sep) n') f = true ->
  followed (String a sep) f p = true ->
  Forall (fun e => Py.starts f e = true) (tail (Py.split (String a sep) p)).
Proof.
  intros Hinert.
  induction p as [| p IH | c p Hst IH] using (replace_ind a sep); intros H.
  - constructor.
  - rewrite split_match. cbn [tail].
    change (String a sep +:+ p) with (String a (sep +:+ p)) in H.
    rewrite followed_cons in H. apply andb_true_iff in H as [Hhead Hrest].
    change (String a (sep +:+ p)) with (String a sep +:+ p) in Hhead.
    rewrite starts_app in Hhead.
    apply starts_split in Hhead as [t Ht]. rewrite sapp_assoc in Ht.
    apply String.app_inj in Ht as ->.
    assert (followed (String a sep) f (f +:+ t) = true) as Hf.
    { eapply followed_rest; [| exact Hrest].
      destruct sep as [|b sep]; [apply rest_of_refl |].
      exists (String b sep). done. }
    specialize (IH Hf).
    assert (exists q qs, Py.split (String a sep) t = q :: qs) as (q & qs & Hq).
    { pose proof (split_nonempty (String a sep) t).
      destruct (Py.split _ t) as [|q qs]; [done | eauto]. }
    rewrite (split_inert _ _ _ _ _ _ Hinert Hq) in IH |- *.
    constructor; [apply starts_app | done].
  - destruct (split_other _ _ _ Hst) as (q & qs & Hq & ->). cbn [tail].
    rewrite followed_cons in H. apply andb_true_iff in H as [_ H].
    specialize (IH H). by rewrite Hq in IH.
Qed.

(** When every CR LF of a text is followed by the reset, every piece
    after the first begins with the reset. *)
Lemma split_followed p :
  followed CRLF reset_code p = true ->
  Forall (fun e => Py.starts reset_code e = true) (tail (Py.split CRLF p)).
Proof. by apply split_followed_by. Qed.

Lemma codepoints_head d s p ps :
  codepoints (String d s) = p :: ps -> exists p', p = String d p'.
Proof.
  cbn [codepoints]. destruct (codepoints s) as [|q qs].
  - intros [= <- <-]. eauto.
  - destruct (match s with String d0 _ => is_continuation d0 | _ => false end);
      intros [= <- <-]; eauto.
Qed.

Lemma single_clean c : Py.contains CRLF (String c EmptyString) = false.
Proof.
  unfold CRLF. cbn [Py.contains Py.starts].
  by rewrite andb_false_r.
Qed.

(** One code point does not hold CR LF. *)
Lemma codepoints_clean s :
  Forall (fun p => Py.contains CRLF p = false) (codepoints s).
Proof.
  induction s as [|c s IH]; [constructor |]. cbn [codepoints].
  destruct (codepoints s) as [|q qs] eqn:Hq.
  { constructor; [apply single_clean | constructor]. }
  inversion IH as [|? ? Hclean Hqs]; subst.
  destruct s as [|d s]; [done |].
  destruct (is_continuation d) eqn:Hd.
  - constructor; [| done].
    destruct (codepoints_head _ _ _ _ Hq) as [q' ->].
    rewrite contains_cons, Hclean, orb_false_r.
    unfold CRLF. cbn [Py.starts].
    destruct (Ascii.eqb_spec "010" d) as [<- | _]; [by vm_compute in Hd |].
    by rewrite andb_false_r.
  - constructor; [apply single_clean | done].
Qed.

(** What the scan reads off a recoloured line: when the line writes no
    CR and no LF as a four-digit escape, and every escaped newline of it
    is followed by the escaped reset, every entry after the first
    begins with the reset. *)
Lemma entries_followed li es :
  annotated_text li = true ->
  entries_of Json.loads li = Ok es ->
  Forall (fun e => Py.starts reset_code e = true) (tail es).
Proof.
  intros Htext (row & payload & Hrow & Hsub & Hsplit)%entries_of_ok.
  apply loads_followed in Hrow; [| done].
  destruct payload as [| | | |p| |]; try done. injection Hsplit as <-.
  destruct row as [| | | |s|items|]; try done.
  - cbn [subscript] in Hsub. apply bind_ok in Hsub as (cp & Hcp & [= <-]).
    unfold Py.getitem in Hcp. destruct (codepoints s !! 2) as [x|] eqn:Hx; [| done].
    injection Hcp as ->.
    pose proof (proj1 (Forall_lookup _ _) (codepoints_clean s) _ _ Hx) as Hclean.
    unfold CRLF in *. rewrite (split_absent _ _ _ Hclean). constructor.
  - cbn [subscript] in Hsub. unfold Py.getitem in Hsub.
    destruct (items !! 2) as [x|] eqn:Hx; [| done]. injection Hsub as ->.
    cbn [strings_followed] in Hrow.
    apply split_followed.
    apply (proj1 (forallb_forall _ _) Hrow (JStr p)).
    apply list_elem_of_In. by eapply list_elem_of_lookup_2.
Qed.

End Decoder.

(** ** Further properties of the passes *)

Section Further.

Variable loads : string -> result value.
Variable dumps : value -> string.

Implicit Types lines out : list string.

(** The two recolouring loops never raise, whatever the lines are, and
    keep the number of lines. *)
Theorem recolor_total lines :
  exists out, recolor lines = Ok out /\ length out = length lines.
Proof.
  exists (recolored lines). split; [apply recolor_closed | apply recolored_length].
Qed.

Lemma recolored_line lines l :
  l ∈ recolored lines ->
  followed esc_newline reset l = true /\ Py.contains prompt l = false.
Proof.
  unfold recolored. intros (a & -> & Ha)%list_elem_of_fmap.
  split; [| apply colorize_line_clears].
  apply colorize_followed.
  assert (forall ls, a ∈ annotated ls -> followed esc_newline reset a = true) as H.
  { intros ls. induction ls as [|x ls IH]; cbn [annotated]; intros Hin.
    - by apply elem_of_nil in Hin.
    - apply elem_of_cons in Hin as [-> | Hin]; [apply annotate_followed | by apply IH]. }
  by eapply H.
Qed.

(** After both loops every escaped newline of every line is followed by
    the escaped reset, and no line holds a prompt marker. *)
Theorem recolor_postcondition lines out l :
  recolor lines = Ok out ->
  l ∈ out ->
  followed esc_newline reset l = true /\ Py.contains prompt l = false.
Proof.
  rewrite recolor_closed. intros [= <-]. apply recolored_line.
Qed.

Lemma prompt_replace_keeps_marker new s :
  Py.contains marker s = true ->
  Py.contains marker (Py.replace prompt new s) = true.
Proof.
  intros (u & v & ->)%contains_iff. unfold prompt.
  rewrite replace_app_barrier by done.
  apply contains_iff. by eexists _, (Py.replace "$ " new v).
Qed.

Lemma annotate_keeps_marker s :
  Py.contains marker s = true ->
  Py.contains marker (annotate_newlines s) = true.
Proof.
  intros (u & v & ->)%contains_iff. unfold annotate_newlines, esc_newline.
  rewrite replace_app_barrier by done.
  apply contains_iff. by eexists _, (Py.replace "\r\n" ("\r\n" +:+ reset) v).
Qed.

Lemma dim_makes_no_marker s :
  Py.contains marker s = false ->
  Py.contains marker (Py.replace prompt dim s) = false.
Proof. by apply replace_keeps_absent. Qed.

Lemma annotate_makes_no_marker s :
  Py.contains marker s = false ->
  Py.contains marker (annotate_newlines s) = false.
Proof. by apply replace_keeps_absent. Qed.

Lemma colorize_makes_no_marker s :
  Py.contains marker s = false ->
  Py.contains marker (colorize_line s) = false.
Proof. by apply replace_keeps_absent. Qed.

(** The package marker through the two recolouring loops.  A line that
    holds the marker still holds it afterwards, at the same index.  The
    other way round, a line that holds the marker afterwards held it
    before, unless its prompt was removed, that is, unless the line
    holds the prompt end and the next line a bare newline: the escape
    sequences the loops write cannot make up a marker, the removal of
    a prompt can. *)
Theorem marker_survives_recolor lines i li :
  lines !! i = Some li ->
  exists out l,
    recolor lines = Ok out /\ out !! i = Some l /\
    (Py.contains marker li = true -> Py.contains marker l = true) /\
    (Py.contains prompt_end li = false \/
     (forall nx, lines !! S i = Some nx -> Py.contains bare_newline nx = false) ->
     Py.contains marker l = true -> Py.contains marker li = true).
Proof.
  intros Hi. eexists (recolored lines), _.
  split; [apply recolor_closed |]. split; [by apply recolored_lookup |].
  unfold rewrite_prompt, prompt_rewriter. split.
  - intros Hm. apply prompt_replace_keeps_marker, annotate_keeps_marker.
    destruct (Py.contains prompt_end li); [| done].
    destruct (lines !! S i) as [nx|]; [| done]. cbn zeta.
    destruct (Py.contains bare_newline nx), (Py.contains hash_payload nx);
      auto using prompt_replace_keeps_marker.
  - intros Hkept Hm. destruct (Py.contains marker li) eqn:Hli; [done |].
    rewrite colorize_makes_no_marker in Hm; [done |].
    apply annotate_makes_no_marker.
    destruct (Py.contains prompt_end li); [| done].
    destruct Hkept as [Hend | Hnext]; [done |].
    destruct (lines !! S i) as [nx|]; [| done]. cbn zeta.
    rewrite (Hnext nx eq_refl).
    destruct (Py.contains hash_payload nx); [| done].
    by apply dim_makes_no_marker.
Qed.

(** The removal of a prompt can bring the two halves of a marker
    together: the first line below holds no marker, and holds one after
    the loops. *)
Example removal_can_make_marker :
  Py.contains marker (event "0.1" "go: added$  github.com/x $ ") = false /\
  recolor rec_marker_made =
    Ok [event "0.1" "go: added github.com/x "; event "0.2" "\r\n\u001b[0m"] /\
  Py.contains marker (event "0.1" "go: added github.com/x ") = true.
Proof. by vm_compute. Qed.

(** A recording without package lines goes through the collapser as it
    is: the decoder is not called, nothing raises, and the script prints
    the recoloured lines but the last two. *)
Theorem no_package_line_no_change input lines :
  recolor input = Ok lines ->
  Forall (fun l => Py.contains marker l = false) lines ->
  collapse loads dumps lines = Ok lines /\
  main loads dumps input =
    Ok (Py.join EmptyString (Py.but_last2 lines) +:+ LF).
Proof.
  intros Hrec Hnone. pose proof (collapse_none loads dumps _ Hnone) as Hc.
  split; [done |]. unfold main, transform. rewrite Hrec. cbn [mbind result_bind].
  by rewrite Hc.
Qed.

Lemma mapM_all_ok {A B} (f : A -> result B) (xs : list A) :
  Forall (fun x => exists y, f x = Ok y) xs -> exists ys, mapM f xs = Ok ys.
Proof.
  induction 1 as [|x xs [y Hy] _ [ys IH]]; [by exists [] |].
  exists (y :: ys). cbn [mapM]. by rewrite Hy, IH.
Qed.

(** When every package line decodes to an array whose third item is a
    string, the collapser does not raise and the script prints its
    output. *)
Theorem well_formed_packages_collapse input lines :
  recolor input = Ok lines ->
  Forall (fun l => Py.contains marker l = true ->
                   exists items payload,
                     loads l = Ok (JArr items) /\
                     items !! 2 = Some (JStr payload)) lines ->
  exists out,
    collapse loads dumps lines = Ok out /\
    main loads dumps input = Ok (emit out).
Proof.
  intros Hrec Hwf.
  assert (exists out, collapse loads dumps lines = Ok out) as [out Hout].
  { destruct (first_pkg_line lines) as [Hnone | (pre & l0 & tail & -> & Hpre & Hl0)].
    { exists lines. by apply collapse_none. }
    rewrite (collapse_closed _ _ _ _ _ Hpre Hl0).
    assert (Forall (fun l => exists es, entries_of loads l = Ok es)
              (l0 :: filter (fun l => pkg_line l = true) tail)) as Hall.
    { apply Forall_forall. intros l Hl.
      assert (l ∈ pre ++ l0 :: tail /\ pkg_line l = true) as [Hin Hpkg].
      { apply elem_of_cons in Hl as [-> | Hl].
        - split; [| done]. apply elem_of_app. right. by left.
        - apply list_elem_of_filter in Hl as [Hp Hl]. split; [| done].
          apply elem_of_app. right. by right. }
      destruct (proj1 (Forall_forall _ _) Hwf l Hin Hpkg)
        as (items & payload & Hl1 & Hl2).
      exists (Py.split CRLF payload). unfold entries_of.
      rewrite Hl1. cbn [mbind result_bind subscript]. unfold Py.getitem.
      by rewrite Hl2. }
    destruct (mapM_all_ok _ _ Hall) as [ess ->]. cbn [mbind result_bind].
    destruct (proj1 (Forall_forall _ _) Hwf l0) as (items & payload & -> & Hit);
      [apply elem_of_app; right; by left | done |].
    cbn [mbind result_bind store]. unfold Py.setitem.
    rewrite decide_True by by eapply lookup_lt_Some.
    cbn [mbind result_bind]. eauto. }
  exists out. split; [done |]. unfold main, transform.
  rewrite Hrec. cbn [mbind result_bind]. by rewrite Hout.
Qed.

Lemma filter_pkg_partition (l : list string) :
  length (filter (fun x => pkg_line x = true) l) +
  length (filter (fun x => pkg_line x = false) l) = length l.
Proof.
  induction l as [|x l IH]; [done |].
  rewrite filter_pkg_cons, filter_not_pkg_cons.
  destruct (pkg_line x); cbn [length]; lia.
Qed.

(** The number of lines: the collapser removes the package lines other
    than the first and nothing else, and the script prints all lines but
    the last two. *)
Theorem line_count input out :
  transform loads dumps input = Ok out ->
  exists lines,
    recolor input = Ok lines /\
    length lines = length input /\
    length out + (length (filter (fun l => Py.contains marker l = true) lines) - 1)
      = length input /\
    length (Py.but_last2 out) = length out - 2.
Proof.
  unfold transform. intros (lines & Hrec & Hout)%bind_ok.
  exists lines. split; [done |].
  assert (length lines = length input) as Hlen.
  { rewrite recolor_closed in Hrec. injection Hrec as <-. apply recolored_length. }
  split; [done |]. split.
  - rewrite <- Hlen.
    destruct (collapse_ok _ _ _ _ Hout)
      as [[Hnone ->] | (pre & l0 & tail & items & ess & -> & Hpre & Hl0 & _ & _
                        & _ & ->)].
    + pose proof (filter_pkg_none _ Hnone) as Hf. unfold pkg_line in Hf.
      rewrite Hf. cbn [length]. lia.
    + pose proof (filter_pkg_partition tail) as Hpart.
      pose proof (filter_pkg_none _ Hpre) as Hf.
      pose proof (filter_pkg_cons l0 tail) as Hcons. rewrite Hl0 in Hcons.
      unfold pkg_line in Hf, Hcons, Hpart.
      rewrite filter_app, Hf, Hcons.
      rewrite !length_app. unfold pkg_line. cbn [length app]. lia.
  - unfold Py.but_last2. rewrite length_take. lia.
Qed.

(** The truncation is not guarded by a length check: a list of three
    entries or fewer is written out twice around the ellipsis, and in
    general the result has twice the smaller of three and the number of
    entries, plus one. *)
Theorem ellipsize_short (pk : list string) :
  length (ellipsize pk) = 2 * min 3 (length pk) + 1 /\
  (length pk <= 3 -> ellipsize pk = pk ++ [ellipsis] ++ pk).
Proof.
  split; [rewrite ellipsize_length; lia |].
  intros Hlen. unfold ellipsize, Py.first3, Py.last3.
  rewrite take_ge by done.
  replace (length pk - 3) with 0 by lia. by rewrite drop_0.
Qed.

(** When the first package line decodes to a JSON string of three
    characters or more, the scan accepts it (a string can be indexed),
    and the script then dies on the assignment to its third item, with
    a TypeError: a string is immutable. *)
Theorem first_row_string_raises pre l0 tail s c :
  Forall (fun l => Py.contains marker l = false) pre ->
  Py.contains marker l0 = true ->
  loads l0 = Ok (JStr s) ->
  codepoints s !! 2 = Some c ->
  (exists ess, mapM (entries_of loads)
                 (filter (fun l => Py.contains marker l = true) tail) = Ok ess) ->
  collapse loads dumps (pre ++ l0 :: tail) = Raise TypeError.
Proof.
  intros Hpre Hl0 Hrow Hc [ess Hess].
  assert (entries_of loads l0 = Ok (Py.split CRLF c)) as Hes.
  { unfold entries_of. rewrite Hrow. cbn [mbind result_bind subscript].
    unfold Py.getitem. by rewrite Hc. }
  rewrite (collapse_closed _ _ _ _ _ Hpre Hl0). cbn [mapM].
  rewrite Hes. cbn [mbind result_bind].
  unfold pkg_line. rewrite Hess. cbn [mbind result_bind mret result_ret].
  by rewrite Hrow.
Qed.

End Further.

(** ** The entries of the recoloured package lines *)

Section Resets.

(** The escaped reset that the first loop writes after an escaped
    newline is, once decoded, at the head of the next entry: for a
    recoloured line that writes no CR and no LF as a four-digit escape,
    every entry after the first that the scan reads off the line begins
    with ESC [ 0 m. *)
Theorem entries_begin_with_reset input lines l es :
  recolor input = Ok lines ->
  l ∈ lines ->
  plain_newline_escapes l = true ->
  entries_of Json.loads l = Ok es ->
  Forall (fun e => Py.starts reset_code e = true) (tail es).
Proof.
  rewrite recolor_closed. intros [= <-] Hl Hplain Hes.
  destruct (recolored_line _ _ Hl) as [Hfol _].
  apply (entries_followed l); [| done].
  unfold annotated_text. by rewrite Hfol, Hplain.
Qed.

(** Without that condition the reset can be missing: CR LF written as
    two four-digit escapes is no escaped newline for the first loop, and
    still separates two entries for the scan. *)
Example unicode_newline_gets_no_reset :
  recolor rec_unicode_newline = Ok rec_unicode_newline /\
  entries_of Json.loads
    (event "0.1"
       "go: added github.com/a v1\u000d\u000ago: added github.com/b v1") =
    Ok ["go: added github.com/a v1"; "go: added github.com/b v1"] /\
  Py.starts reset_code "go: added github.com/b v1" = false.
Proof. by vm_compute. Qed.

End Resets.

(** ** The dependency of the benchmark route *)

Section Header.

(** [processed_header] does not raise (a split is never empty); it
    returns the header up to its first space, or the whole header when
    there is no space in it, and what it returns holds no space. *)
Theorem processed_header_first_word (authorization : string) :
  exists word,
    processed_header authorization = Ok word /\
    Py.contains " " word = false /\
    (authorization = word \/
     exists rest, authorization = word +:+ " " +:+ rest) /\
    (Py.contains " " authorization = false -> word = authorization).
Proof.
  unfold processed_header.
  pose proof (split_nonempty " " authorization) as Hne.
  pose proof (split_pieces_clean " " EmptyString authorization) as Hclean.
  destruct (Py.split " " authorization) as [|word ps] eqn:Hsplit; [done |].
  exists word. split; [done |].
  inversion Hclean as [|? ? Hword _]; subst. split; [done |].
  split.
  - destruct (split_first _ _ _ _ _ Hsplit) as [[_ ->] | (rest & -> & _)];
      [by left | right; by exists rest].
  - intros Hno. rewrite (split_absent _ _ _ Hno) in Hsplit. by injection Hsplit.
Qed.

Example processed_header_bearer :
  processed_header "Bearer abc def" = Ok "Bearer" /\
  processed_header EmptyString = Ok EmptyString.
Proof. by vm_compute. Qed.

End Header.

(** ** The further properties on the sample recordings *)

Section Checks.

Lemma recolor_postcondition_witness :
  followed esc_newline reset (event "0.2" "\r\n\u001b[0m") = true /\
  Py.contains prompt (event "0.2" "\r\n\u001b[0m") = false.
Proof.
  apply (recolor_postcondition rec_prompt_newline
           [event "0.1" EmptyString; event "0.2" "\r\n\u001b[0m"]).
  - vm_compute. reflexivity.
  - apply list_elem_of_In. simpl. tauto.
Defined.

Lemma marker_survives_recolor_witness :
  exists out l,
    recolor rec_packages = Ok out /\ out !! 3 = Some l /\
    Py.contains marker l = true /\
    (Py.contains marker l = true ->
     Py.contains marker
       (event "0.4"
          "go: added github.com/c v1\r\ngo: added github.com/d v1\r\ngo: added github.com/e v1")
       = true).
Proof.
  destruct (marker_survives_recolor rec_packages 3 _ eq_refl)
    as (out & l & Hout & Hl & Hkeep & Hback).
  exists out, l. split; [exact Hout |]. split; [exact Hl |].
  split; [apply Hkeep; reflexivity |].
  apply Hback. left. reflexivity.
Defined.

Lemma no_package_line_no_change_witness :
  main Json.loads Json.dumps rec_plain = Ok LF.
Proof.
  destruct (no_package_line_no_change Json.loads Json.dumps rec_plain
              (recolored rec_plain)) as [_ Hmain].
  - apply recolor_closed.
  - vm_compute. repeat constructor.
  - rewrite Hmain. vm_compute. reflexivity.
Defined.

Lemma well_formed_packages_collapse_witness :
  exists out, collapse Json.loads Json.dumps (recolored rec_package_last) = Ok out.
Proof.
  destruct (well_formed_packages_collapse Json.loads Json.dumps rec_package_last
              (recolored rec_package_last)) as (out & Hout & _).
  - apply recolor_closed.
  - let ls := eval vm_compute in (recolored rec_package_last) in
    change (recolored rec_package_last) with ls.
    repeat (apply Forall_cons; split;
              [intros Hm; vm_compute in Hm;
               first [discriminate Hm | eexists _, _; split; reflexivity] |]).
    apply Forall_nil_2.
  - by exists out.
Defined.

Lemma line_count_witness :
  exists out,
    transform Json.loads Json.dumps rec_packages = Ok out /\
    length out + 1 = 7.
Proof.
  assert (exists out, transform Json.loads Json.dumps rec_packages = Ok out)
    as [out Hout] by (eexists; vm_compute; reflexivity).
  destruct (line_count Json.loads Json.dumps rec_packages out Hout)
    as (lines & Hlines & _ & Hcount & _).
  exists out. split; [exact Hout |].
  rewrite recolor_closed in Hlines. injection Hlines as <-.
  exact Hcount.
Defined.

Lemma first_row_string_raises_witness :
  collapse Json.loads Json.dumps rec_string_row = Raise TypeError.
Proof.
  apply (first_row_string_raises Json.loads Json.dumps
           [event "0.1" "go get"] (dq +:+ "go: added github.com/a v1" +:+ dq +:+ LF)
           [event "0.3" "exit"] "go: added github.com/a v1" ":").
  - repeat constructor.
  - reflexivity.
  - vm_compute. reflexivity.
  - reflexivity.
  - exists []. reflexivity.
Defined.

Lemma entries_begin_with_reset_witness :
  Forall (fun e => Py.starts reset_code e = true)
    [reset_code +:+ "go: added github.com/b v1"; reset_code].
Proof.
  apply (entries_begin_with_reset rec_packages (recolored rec_packages)
           (event "0.2"
              "go: added github.com/a v1\r\n\u001b[0mgo: added github.com/b v1\r\n\u001b[0m")
           ["go: added github.com/a v1";
            reset_code +:+ "go: added github.com/b v1"; reset_code]).
  - apply recolor_closed.
  - apply list_elem_of_In. vm_compute. tauto.
  - vm_compute. reflexivity.
  - vm_compute. reflexivity.
Defined.

Lemma ellipsize_short_witness :
  ellipsize ["a"; "b"] = ["a"; "b"; ellipsis; "a"; "b"].
Proof.
  apply (proj2 (ellipsize_short ["a"; "b"])). simpl. lia.
Defined.

Lemma processed_header_first_word_witness :
  exists word,
    processed_header "token" = Ok word /\ word = "token".
Proof.
  destruct (processed_header_first_word "token") as (word & Hw & _ & _ & Hsame).
  exists word. split; [exact Hw | apply Hsame; reflexivity].
Defined.

End Checks.

(** ** The macro of the documentation *)

Section Macro.

Implicit Types d opts kwargs : list (string * pyval).

Lemma dict_setitem_keys k (v : pyval) d :
  (dict_setitem k v d).*1 = if decide (k ∈ d.*1) then d.*1 else d.*1 ++ [k].
Proof.
  induction d as [|[k' v'] d IH]; [done |]. cbn [dict_setitem].
  destruct (String.eqb_spec k k') as [-> | Hne].
  - rewrite decide_True by (cbn; left). done.
  - cbn [fmap list_fmap fst]. rewrite IH.
    destruct (decide (k ∈ d.*1)) as [Hin | Hout].
    + rewrite decide_True by (by right). done.
    + rewrite decide_False; [done |]. cbn. intros [?|?]%elem_of_cons; done.
Qed.

Lemma dict_setitem_same k (v : pyval) d : (k, v) ∈ dict_setitem k v d.
Proof.
  induction d as [|[k' v'] d IH]; [by left |]. cbn [dict_setitem].
  destruct (String.eqb_spec k k') as [-> | Hne]; [by left | by right].
Qed.

Lemma dict_setitem_other k (v : pyval) k' v' d :
  k' <> k -> (k', v') ∈ d -> (k', v') ∈ dict_setitem k v d.
Proof.
  intros Hne. induction d as [|[k1 v1] d IH]; intros Hin.
  - by apply elem_of_nil in Hin.
  - cbn [dict_setitem]. apply elem_of_cons in Hin as [[= <- <-] | Hin].
    + destruct (String.eqb_spec k k') as [-> | _]; [done | by left].
    + destruct (String.eqb k k1); right; [done | by apply IH].
Qed.

Lemma dict_setitem_nodup k (v : pyval) d :
  NoDup d.*1 -> NoDup (dict_setitem k v d).*1.
Proof.
  intros Hd. rewrite dict_setitem_keys. case_decide; [done |].
  apply NoDup_app. split; [done |]. split; [| apply NoDup_singleton].
  intros x Hx ->%list_elem_of_singleton. done.
Qed.

Lemma update_opts_nodup d kwargs : NoDup d.*1 -> NoDup (update_opts d kwargs).*1.
Proof.
  revert d. induction kwargs as [|[k v] kwargs IH]; intros d Hd; [done |].
  apply IH. by apply dict_setitem_nodup.
Qed.

Lemma update_opts_keeps d kwargs k v :
  (k, v) ∈ d -> k ∉ kwargs.*1 -> (k, v) ∈ update_opts d kwargs.
Proof.
  revert d. induction kwargs as [|[k1 v1] kwargs IH]; intros d Hin Hout; [done |].
  cbn in Hout. apply not_elem_of_cons in Hout as [Hne Hout].
  apply IH; [| done]. by apply dict_setitem_other.
Qed.

Lemma update_opts_sets d kwargs k v :
  NoDup kwargs.*1 -> (k, v) ∈ kwargs -> (k, v) ∈ update_opts d kwargs.
Proof.
  revert d. induction kwargs as [|[k1 v1] kwargs IH]; intros d Hnd Hin.
  - by apply elem_of_nil in Hin.
  - cbn in Hnd. apply NoDup_cons in Hnd as [Hk1 Hnd].
    apply elem_of_cons in Hin as [[= -> ->] | Hin].
    + apply (update_opts_keeps (dict_setitem k1 v1 d));
        [apply dict_setitem_same | done].
    + by apply IH.
Qed.

Lemma options_cat (opts : list (string * pyval)) (init : string) :
  fold_left (fun js kv => js +:+ option_js kv) opts init =
  init +:+ fold_right (fun kv js => option_js kv +:+ js) EmptyString opts.
Proof.
  revert init. induction opts as [|kv opts IH]; intros init.
  - by rewrite sapp_nil_r.
  - cbn [fold_left fold_right]. by rewrite IH, sapp_assoc.
Qed.

Lemma contains_app_l q s t : Py.contains q s = true -> Py.contains q (s +:+ t) = true.
Proof.
  intros (u & v & ->)%contains_iff. apply contains_iff.
  exists u, (v +:+ t). by rewrite !sapp_assoc.
Qed.

Lemma option_in_js div_id file opts kv :
  kv ∈ opts -> Py.contains (option_js kv) (create_player_js div_id file opts) = true.
Proof.
  intros (l1 & l2 & ->)%list_elem_of_split. unfold create_player_js.
  rewrite options_cat. apply contains_app_l, contains_app_r.
  induction l1 as [|x l1 IH]; cbn [app fold_right].
  - apply contains_starts, starts_app.
  - by apply contains_app_r.
Qed.

Lemma option_in_html uuid4 file kwargs kv :
  kv ∈ merged_opts kwargs ->
  Py.contains (option_js kv) (asciinema uuid4 file kwargs) = true.
Proof.
  intros Hin. unfold asciinema. cbn zeta.
  do 4 apply contains_app_r.
  by apply contains_app_l, option_in_js.
Qed.


End Macro.

Section MacroChecks.


End MacroChecks.
